(** * The [stats] plugin tool (examples/tools/python/tool.py)

    A shallow embedding of the plugin: the JSON values a request line decodes
    to, Python's coercions [float()] and [int()] on them, the statistics
    engine [compute_stats], the call handler [handle_call] and the message
    loop [main].

    Numbers are binary64 floats (Rocq's primitive floats, which are IEEE 754
    binary64 with round-to-nearest-even), exceptions are explicit: a
    computation returns [Ret v] or [Raise e], and an exception nothing
    catches ends the message loop.

    What the interpreter, and not the repository, decides is modelled as
    follows.
    - [sorted] is a stable insertion sort driven by [<] alone.  On a list
      without NaN, [<] is a strict weak order and every stable sort returns
      the same list as CPython's; with NaN among several elements the order
      CPython returns depends on the internals of its merge sort, and the
      statements about order statistics assume a NaN-free sample.
    - [sum] adds from left to right, starting from the integer 0 (CPython
      3.12 and later add a compensation term, which may change the last bit
      of an inexact sum).
    - [x ** 2] is the correctly rounded square, and raises [OverflowError]
      when the square of a finite [x] is not finite, as CPython's [float_pow]
      does.
    - Strings are byte strings; [float()] and [int()] read the ASCII
      grammar (digits, sign, point, exponent, underscores between digits,
      surrounding white space, and inf, infinity, nan for floats).
    - Exception messages follow CPython 3.10 and later.
    - A format specification [".<precision>f"] is refused with [ValueError]
      when the precision is negative (the sign is no digit) or beyond the
      limits of a 64-bit CPython; [format_f] gives the digits for a
      precision that is accepted, and [format_spec] is the check.
    - [json.loads] may fail with [JSONDecodeError], which the loop catches,
      or with another exception (the [ValueError] of the integer digit
      limit, [RecursionError] on deep nesting), which it does not. *)

From Stdlib Require Import ZArith QArith Qround Lqa Floats List String Ascii Bool Lia.
From Stdlib Require Import DecimalString Permutation Sorted.
Import ListNotations.

Local Open Scope string_scope.
Local Open Scope Z_scope.

(** ** Exceptions and outcomes *)

Inductive exn : Type :=
| TypeError (msg : string)
| ValueError (msg : string)
| OverflowError (msg : string)
| AttributeError (msg : string)
| IndexError (msg : string)
| RecursionError (msg : string).

(** [str(e)] *)
Definition message (e : exn) : string :=
  match e with
  | TypeError m | ValueError m | OverflowError m
  | AttributeError m | IndexError m | RecursionError m => m
  end.

Inductive outcome (A : Type) : Type :=
| Ret (a : A)
| Raise (e : exn).

Arguments Ret {A} a.
Arguments Raise {A} e.

Definition bind {A B : Type} (c : outcome A) (k : A -> outcome B) : outcome B :=
  match c with
  | Ret a => k a
  | Raise e => Raise e
  end.

Notation "x <- c ;; k" := (bind c (fun x => k))
  (at level 61, c at next level, right associativity).

(** [try: c  except (TypeError, ValueError) as e: handler e] *)
Definition is_type_or_value_error (e : exn) : bool :=
  match e with
  | TypeError _ | ValueError _ => true
  | _ => false
  end.

Definition try_except {A : Type} (c : outcome A) (handler : exn -> outcome A)
  : outcome A :=
  match c with
  | Ret a => Ret a
  | Raise e => if is_type_or_value_error e then handler e else Raise e
  end.

(** [[f(x) for x in l]]: left to right, the first exception escapes. *)
Fixpoint comprehension {A B : Type} (f : A -> outcome B) (l : list A)
  : outcome (list B) :=
  match l with
  | [] => Ret []
  | x :: l' => y <- f x ;; ys <- comprehension f l' ;; Ret (y :: ys)
  end.

(** ** JSON values, as [json.loads] returns them *)

#[local] Unset Elimination Schemes.
Inductive json : Type :=
| JNull
| JBool (b : bool)
| JInt (z : Z)
| JFloat (f : float)
| JStr (s : string)
| JList (l : list json)
| JDict (d : list (string * json)).
#[local] Set Elimination Schemes.

Definition type_name (v : json) : string :=
  match v with
  | JNull => "NoneType"
  | JBool _ => "bool"
  | JInt _ => "int"
  | JFloat _ => "float"
  | JStr _ => "str"
  | JList _ => "list"
  | JDict _ => "dict"
  end.

(** A dict keeps its keys in insertion order; a key occurs once. *)
Fixpoint dict_get (d : list (string * json)) (k : string) : option json :=
  match d with
  | [] => None
  | (k', v) :: d' => if String.eqb k' k then Some v else dict_get d' k
  end.

(** [d[k] = v] *)
Fixpoint dict_set (d : list (string * json)) (k : string) (v : json)
  : list (string * json) :=
  match d with
  | [] => [(k, v)]
  | (k', v') :: d' =>
      if String.eqb k' k then (k, v) :: d' else (k', v') :: dict_set d' k v
  end.

(** [d.pop(k, None)] *)
Fixpoint dict_del (d : list (string * json)) (k : string)
  : list (string * json) :=
  match d with
  | [] => []
  | (k', v') :: d' =>
      if String.eqb k' k then dict_del d' k else (k', v') :: dict_del d' k
  end.

(** [obj.get(k, default)]: only a dict has the method. *)
Definition py_get (obj : json) (k : string) (default : json) : outcome json :=
  match obj with
  | JDict d =>
      Ret (match dict_get d k with Some v => v | None => default end)
  | _ =>
      Raise (AttributeError
               ("'" ++ type_name obj ++ "' object has no attribute 'get'"))
  end.

(** ** Text helpers *)

Definition newline : string := String (ascii_of_nat 10) EmptyString.

Definition str_of_int (z : Z) : string := NilZero.string_of_int (Z.to_int z).

Fixpoint repeat_char (c : ascii) (n : nat) : string :=
  match n with
  | O => EmptyString
  | S n' => String c (repeat_char c n')
  end.

(** [f"{s:<w}"] *)
Definition ljust (s : string) (w : nat) : string :=
  s ++ repeat_char " "%char (w - String.length s).

(** [s.rjust(w, "0")] *)
Definition zfill (s : string) (w : nat) : string :=
  repeat_char "0"%char (w - String.length s) ++ s.

(** [repr(s)] of a string: the quote is chosen by the quotes inside, and
    backslash, the chosen quote and control characters are escaped. *)
Fixpoint has_char (c : ascii) (s : string) : bool :=
  match s with
  | EmptyString => false
  | String c' s' => Ascii.eqb c c' || has_char c s'
  end.

Definition hex_digit (n : N) : ascii :=
  ascii_of_N (if (n <? 10)%N then 48 + n else 87 + n)%N.

Definition escape_char (quote c : ascii) : string :=
  let n := N_of_ascii c in
  if Ascii.eqb c quote || Ascii.eqb c "\"%char then String "\"%char (String c "")
  else if (n =? 10)%N then "\n"
  else if (n =? 13)%N then "\r"
  else if (n =? 9)%N then "\t"
  else if (n <? 32)%N || (n =? 127)%N then
    "\x" ++ String (hex_digit (n / 16)) (String (hex_digit (n mod 16)) "")
  else String c "".

Fixpoint escape (quote : ascii) (s : string) : string :=
  match s with
  | EmptyString => EmptyString
  | String c s' => escape_char quote c ++ escape quote s'
  end.

Definition double_quote : ascii := ascii_of_nat 34.

Definition repr_str (s : string) : string :=
  let quote :=
    if has_char "'"%char s && negb (has_char double_quote s)
    then double_quote else "'"%char in
  String quote (escape quote s) ++ String quote "".

(** ** Binary64 numbers *)

(** The nearest binary64 to [m * 2^e], ties to even; infinite when the
    rounded value is out of range. *)
Definition float_of_scaled (m e : Z) : float :=
  SF2Prim (binary_normalize prec emax m e false).

Definition float_of_Z (z : Z) : float := float_of_scaled z 0.

(** [float(z)] of an integer. *)
Definition float_of_int (z : Z) : outcome float :=
  let f := float_of_Z z in
  if PrimFloat.is_infinity f
  then Raise (OverflowError "int too large to convert to float")
  else Ret f.

(** The integer a finite float truncates to (towards zero). *)
Definition truncate (f : float) : Z :=
  match Prim2SF f with
  | S754_finite s m e =>
      let a := if 0 <=? e then Z.shiftl (Zpos m) e else Z.shiftr (Zpos m) (- e) in
      if s then - a else a
  | _ => 0
  end.

(** [int(f)] of a float. *)
Definition int_of_float (f : float) : outcome Z :=
  if PrimFloat.is_nan f
  then Raise (ValueError "cannot convert float NaN to integer")
  else if PrimFloat.is_infinity f
  then Raise (OverflowError "cannot convert float infinity to integer")
  else Ret (truncate f).

(** [a / b] rounded to the nearest integer, ties to even ([0 < b]). *)
Definition div_half_even (a b : Z) : Z :=
  let q := a / b in
  let r := a mod b in
  if (b <? 2 * r) || ((b =? 2 * r) && Z.odd q) then q + 1 else q.

(** The digits of [format(x, ".<precision>f")] for the magnitude
    [m * 2^e]: correctly rounded, ties to even, fixed point. *)
Definition fixed_digits (precision : Z) (m e : Z) : string :=
  let scale := 10 ^ precision in
  let units :=
    if 0 <=? e then m * 2 ^ e * scale else div_half_even (m * scale) (2 ^ (- e)) in
  let whole := str_of_int (units / scale) in
  if precision =? 0 then whole
  else whole ++ "." ++ zfill (str_of_int (units mod scale)) (Z.to_nat precision).

(** The text of [f"{x:.<precision>f}"], for a precision the format
    specification accepts (see [format_spec]). *)
Definition format_f (precision : Z) (x : float) : string :=
  match Prim2SF x with
  | S754_nan => "nan"
  | S754_infinity s => if s then "-inf" else "inf"
  | S754_zero s => (if s then "-" else "") ++ fixed_digits precision 0 0
  | S754_finite s m e =>
      (if s then "-" else "") ++ fixed_digits precision (Zpos m) e
  end.

(** What formatting a float with [fmt = f".{precision}f"] checks before
    any digit is produced, whatever the float: a negative precision leaves
    no digit after the point of the specification, and a precision beyond
    [sys.maxsize] or beyond the C [int] is refused. *)
Definition format_spec (precision : Z) : outcome unit :=
  if precision <? 0
  then Raise (ValueError "Format specifier missing precision")
  else if 2 ^ 63 <=? precision
  then Raise (ValueError "Too many decimal digits in format string")
  else if 2 ^ 31 <=? precision
  then Raise (ValueError "precision too big")
  else Ret tt.

(** ** Reading numbers from strings *)

Definition is_space (c : ascii) : bool :=
  let n := N_of_ascii c in
  ((n =? 32) || ((9 <=? n) && (n <=? 13)) || ((28 <=? n) && (n <=? 31)))%N.

Definition is_digit (c : ascii) : bool :=
  let n := N_of_ascii c in ((48 <=? n) && (n <=? 57))%N.

Definition digit_value (c : ascii) : Z := Z.of_N (N_of_ascii c) - 48.

Definition lower (c : ascii) : ascii :=
  let n := N_of_ascii c in
  if ((65 <=? n) && (n <=? 90))%N then ascii_of_N (n + 32) else c.

Fixpoint lstrip (s : list ascii) : list ascii :=
  match s with
  | c :: s' => if is_space c then lstrip s' else s
  | [] => []
  end.

Definition strip (s : list ascii) : list ascii :=
  rev (lstrip (rev (lstrip s))).

(** An underscore is allowed only between two digits; [prev] is the
    character before [s]. *)
Fixpoint drop_underscores (prev : ascii) (s : list ascii)
  : option (list ascii) :=
  match s with
  | [] => if Ascii.eqb prev "_" then None else Some []
  | c :: s' =>
      if Ascii.eqb c "_" then
        if is_digit prev then drop_underscores c s' else None
      else if Ascii.eqb prev "_" && negb (is_digit c) then None
      else option_map (cons c) (drop_underscores c s')
  end.

Fixpoint take_digits (s : list ascii) : list ascii * list ascii :=
  match s with
  | c :: s' =>
      if is_digit c then let '(ds, r) := take_digits s' in (c :: ds, r)
      else ([], s)
  | [] => ([], [])
  end.

Definition Z_of_digits (ds : list ascii) : Z :=
  fold_left (fun acc c => 10 * acc + digit_value c) ds 0.

Definition take_sign (s : list ascii) : bool * list ascii :=
  match s with
  | "-"%char :: s' => (true, s')
  | "+"%char :: s' => (false, s')
  | _ => (false, s)
  end.

(** The nearest binary64 to [m * 10^e] for [0 <= m]. *)
Definition float_of_decimal (m e : Z) : float :=
  if m =? 0 then PrimFloat.zero
  else if 0 <=? e then float_of_scaled (m * 10 ^ e) 0
  else
    let d := 10 ^ (- e) in
    let k := Z.max 0 (Z.log2 d - Z.log2 m + 66) in
    let q := (m * 2 ^ k) / d in
    let sticky := if (m * 2 ^ k) mod d =? 0 then 0 else 1 in
    float_of_scaled (2 * q + sticky) (- (k + 1)).

(** The exponent part: nothing, or [e], a sign and at least one digit. *)
Definition take_exponent (s : list ascii) : option Z :=
  match s with
  | [] => Some 0
  | c :: s' =>
      if Ascii.eqb (lower c) "e" then
        let '(neg, s'') := take_sign s' in
        match take_digits s'' with
        | ((_ :: _) as ds, []) =>
            Some (if neg then - Z_of_digits ds else Z_of_digits ds)
        | _ => None
        end
      else None
  end.

Definition magnitude_of_chars (s : list ascii) : option float :=
  let name := string_of_list_ascii (map lower s) in
  if String.eqb name "inf" || String.eqb name "infinity"
  then Some PrimFloat.infinity
  else if String.eqb name "nan" then Some PrimFloat.nan
  else
    let '(whole, r) := take_digits s in
    let '(fraction, r') :=
      match r with
      | "."%char :: r1 => take_digits r1
      | _ => ([], r)
      end in
    match (whole ++ fraction)%list, take_exponent r' with
    | (_ :: _) as ds, Some e =>
        Some (float_of_decimal (Z_of_digits ds)
                (e - Z.of_nat (List.length fraction)))
    | _, _ => None
    end.

Definition float_of_chars (s : list ascii) : option float :=
  match drop_underscores " " (strip s) with
  | None => None
  | Some s' =>
      let '(neg, body) := take_sign s' in
      option_map (fun f => if neg then PrimFloat.opp f else f)
        (magnitude_of_chars body)
  end.

Definition int_of_chars (s : list ascii) : option Z :=
  match drop_underscores " " (strip s) with
  | None => None
  | Some s' =>
      let '(neg, body) := take_sign s' in
      match take_digits body with
      | ((_ :: _) as ds, []) =>
          Some (if neg then - Z_of_digits ds else Z_of_digits ds)
      | _ => None
      end
  end.

(** ** Python's coercions on JSON values *)

(** [float(v)] *)
Definition py_float (v : json) : outcome float :=
  match v with
  | JBool b => Ret (if b then PrimFloat.one else PrimFloat.zero)
  | JInt z => float_of_int z
  | JFloat f => Ret f
  | JStr s =>
      match float_of_chars (list_ascii_of_string s) with
      | Some f => Ret f
      | None =>
          Raise (ValueError ("could not convert string to float: " ++ repr_str s))
      end
  | JNull | JList _ | JDict _ =>
      Raise (TypeError
               ("float() argument must be a string or a real number, not '"
                ++ type_name v ++ "'"))
  end.

(** [int(v)] *)
Definition py_int (v : json) : outcome Z :=
  match v with
  | JBool b => Ret (if b then 1 else 0)
  | JInt z => Ret z
  | JFloat f => int_of_float f
  | JStr s =>
      match int_of_chars (list_ascii_of_string s) with
      | Some z => Ret z
      | None =>
          Raise (ValueError
                   ("invalid literal for int() with base 10: " ++ repr_str s))
      end
  | JNull | JList _ | JDict _ =>
      Raise (TypeError
               ("int() argument must be a string, a bytes-like object or a real number, not '"
                ++ type_name v ++ "'"))
  end.

(** [for x in v]: the elements of a list, the characters of a string, the
    keys of a dict; nothing else iterates. *)
Definition py_iter (v : json) : outcome (list json) :=
  match v with
  | JList l => Ret l
  | JStr s => Ret (map (fun c => JStr (String c "")) (list_ascii_of_string s))
  | JDict d => Ret (map (fun kv => JStr (fst kv)) d)
  | JNull | JBool _ | JInt _ | JFloat _ =>
      Raise (TypeError ("'" ++ type_name v ++ "' object is not iterable"))
  end.

(** ** The arithmetic [compute_stats] uses

    The engine's order statistics are written once, over the operations
    Python's numbers offer, and run on floats; the instance at exact
    rationals shows what the formulas compute when nothing is rounded. *)

Class Number (A : Type) : Type := {
  of_int : Z -> A;
  add : A -> A -> A;
  sub : A -> A -> A;
  mul : A -> A -> A;
  div : A -> A -> A;
  ltb : A -> A -> bool;
  leb : A -> A -> bool;
  to_int : A -> outcome Z
}.

(** The integers that meet a float in [compute_stats] are 0, 1, 100, list
    lengths and ranks: all convert without overflow. *)
#[export] Instance float_number : Number float := {
  of_int := float_of_Z;
  add := PrimFloat.add;
  sub := PrimFloat.sub;
  mul := PrimFloat.mul;
  div := PrimFloat.div;
  ltb := PrimFloat.ltb;
  leb := PrimFloat.leb;
  to_int := int_of_float
}.

#[export] Instance exact_number : Number Q := {
  of_int := inject_Z;
  add := Qplus;
  sub := Qminus;
  mul := Qmult;
  div := Qdiv;
  ltb := fun x y => negb (Qle_bool y x);
  leb := Qle_bool;
  to_int := fun x => Ret (Z.quot (Qnum x) (Zpos (Qden x)))
}.

Section OrderStatistics.
Context {A : Type} `{Number A}.

(** [x] goes before the first element that is not below it. *)
Fixpoint insert (x : A) (l : list A) : list A :=
  match l with
  | [] => [x]
  | y :: l' => if ltb y x then y :: insert x l' else x :: y :: l'
  end.

(** [sorted(l)] *)
Fixpoint sorted (l : list A) : list A :=
  match l with
  | [] => []
  | x :: l' => insert x (sorted l')
  end.

(** [l[i]]: a negative index counts from the end. *)
Definition getitem (l : list A) (i : Z) : outcome A :=
  let n := Z.of_nat (List.length l) in
  let j := if i <? 0 then i + n else i in
  match (if (0 <=? j) && (j <? n) then nth_error l (Z.to_nat j) else None) with
  | Some x => Ret x
  | None => Raise (IndexError "list index out of range")
  end.

(** [0 <= p <= 100] *)
Definition in_range (p : A) : bool :=
  leb (of_int 0) p && leb p (of_int 100).

(** The body of the percentile loop, lines 89 to 93. *)
Definition percentile_value (sorted_nums : list A) (n : Z) (p : A)
  : outcome A :=
  let idx := mul (div p (of_int 100)) (of_int (n - 1)) in
  lo <- to_int idx ;;
  let hi := Z.min (lo + 1) (n - 1) in
  let frac := sub idx (of_int lo) in
  a <- getitem sorted_nums lo ;;
  b <- getitem sorted_nums hi ;;
  Ret (add (mul a (sub (of_int 1) frac)) (mul b frac)).
End OrderStatistics.

(** ** The statistics engine *)

(** [sum(l)] *)
Definition sum (l : list float) : float :=
  fold_left PrimFloat.add l (float_of_Z 0).

(** [x ** 2] *)
Definition square (x : float) : outcome float :=
  let r := PrimFloat.mul x x in
  if PrimFloat.is_infinity r && negb (PrimFloat.is_infinity x)
  then Raise (OverflowError "(34, 'Numerical result out of range')")
  else Ret r.

(** [math.sqrt(x)] *)
Definition math_sqrt (x : float) : outcome float :=
  if PrimFloat.ltb x PrimFloat.zero
  then Raise (ValueError "math domain error")
  else Ret (PrimFloat.sqrt x).

(** Lines 64 to 68. *)
Definition median_of (sorted_nums : list float) (n : Z) : outcome float :=
  let mid := n / 2 in
  if n mod 2 =? 0 then
    a <- getitem sorted_nums (mid - 1) ;;
    b <- getitem sorted_nums mid ;;
    Ret (PrimFloat.div (PrimFloat.add a b) (float_of_Z 2))
  else getitem sorted_nums mid.

(** Lines 86 to 94: one line for each percentile in range. *)
Fixpoint percentile_lines (sorted_nums : list float) (n precision : Z)
  (ps : list float) : outcome (list string) :=
  match ps with
  | [] => Ret []
  | p :: ps' =>
      if negb (in_range p) then percentile_lines sorted_nums n precision ps'
      else
        val <- percentile_value sorted_nums n p ;;
        label <- int_of_float p ;;
        rest <- percentile_lines sorted_nums n precision ps' ;;
        Ret (("p" ++ ljust (str_of_int label) 6 ++ "  = "
              ++ format_f precision val) :: rest)
  end.

(** Line 61. *)
Definition mean_of (numbers : list float) : float :=
  PrimFloat.div (sum numbers) (float_of_Z (Z.of_nat (List.length numbers))).

(** Line 71. *)
Definition variance_of (numbers : list float) : outcome float :=
  squares <-
    comprehension (fun x => square (PrimFloat.sub x (mean_of numbers))) numbers ;;
  Ret (PrimFloat.div (sum squares) (float_of_Z (Z.of_nat (List.length numbers)))).

(** Lines 76 to 83. *)
Definition base_lines (precision n : Z) (first last mean median stddev : float)
  : list string :=
  [ "n        = " ++ str_of_int n;
    "min      = " ++ format_f precision first;
    "max      = " ++ format_f precision last;
    "mean     = " ++ format_f precision mean;
    "median   = " ++ format_f precision median;
    "std_dev  = " ++ format_f precision stddev ].

Definition compute_stats (numbers : list float) (precision : Z)
  (percentiles : list float) : outcome string :=
  let n := Z.of_nat (List.length numbers) in
  if n =? 0 then Ret "Error: empty list"
  else
    let sorted_nums := sorted numbers in
    let mean := mean_of numbers in
    median <- median_of sorted_nums n ;;
    variance <- variance_of numbers ;;
    stddev <- math_sqrt variance ;;
    first <- getitem sorted_nums 0 ;;
    _ <- format_spec precision ;;
    last <- getitem sorted_nums (-1) ;;
    let lines := base_lines precision n first last mean median stddev in
    more <- percentile_lines sorted_nums n precision (sorted percentiles) ;;
    Ret (String.concat newline (lines ++ more)%list).

(** ** The call handler *)

(** What lines 101 to 117 decide: the early return of a diagnostic, or the
    arguments [compute_stats] is called with. *)
Inductive validation : Type :=
| Reject (text : string)
| Accept (numbers : list float) (precision : Z) (percentiles : list float).

Definition validate (params : json) : outcome validation :=
  raw <- py_get params "numbers" JNull ;;
  match raw with
  | JList ((_ :: _) as elements) =>
      attempt <-
        try_except
          (numbers <- comprehension py_float elements ;; Ret (inr numbers))
          (fun e => Ret (inl (message e))) ;;
      match attempt with
      | inl detail =>
          Ret (Reject ("Error: non-numeric value in numbers: " ++ detail))
      | inr numbers =>
          given <- py_get params "precision" (JInt 4) ;;
          precision <- py_int given ;;
          let precision := Z.max 0 (Z.min precision 10) in
          raw_pcts <- py_get params "percentiles" (JList []) ;;
          percentiles <-
            try_except (ps <- py_iter raw_pcts ;; comprehension py_float ps)
              (fun _ => Ret []) ;;
          Ret (Accept numbers precision percentiles)
      end
  | _ => Ret (Reject "Error: 'numbers' must be a non-empty array")
  end.

(** Lines 99 to 120: [(text, is_error)], or the exception that escapes. *)
Definition handle_call (params : json) : outcome (string * bool) :=
  v <- validate params ;;
  match v with
  | Reject text => Ret (text, true)
  | Accept numbers precision percentiles =>
      result <- compute_stats numbers precision percentiles ;;
      Ret (result, false)
  end.

(** ** The message loop *)

(** An input line, by what [strip()] and [json.loads] make of it: blank,
    not JSON ([JSONDecodeError], with the decoder's message), a JSON
    value, or a line on which [json.loads] raises another exception. *)
Inductive line : Type :=
| Blank
| Malformed (e : string)
| Document (msg : json)
| Undecodable (e : exn).

(** A line written to the output: the capability descriptor [DEFINITION],
    or the document [{"content": [{"type": "text", "text": text}],
    "error": error}].  The text of the answer to an unknown message type
    is "Unknown message type: " followed by [repr(msg_type)]; it is kept
    as the value it renders. *)
Inductive response : Type :=
| Descriptor
| Result (text : string) (error : bool)
| UnknownType (msg_type : json).

Definition is_str (v : json) (s : string) : bool :=
  match v with
  | JStr s' => String.eqb s' s
  | _ => false
  end.

(** The body of the loop, lines 128 to 159: the line written, if any. *)
Definition respond (raw_line : line) : outcome (option response) :=
  match raw_line with
  | Blank => Ret None
  | Malformed e => Ret (Some (Result ("JSON parse error: " ++ e) true))
  | Document msg =>
      msg_type <- py_get msg "type" JNull ;;
      if is_str msg_type "describe" then Ret (Some Descriptor)
      else if is_str msg_type "call" then
        params <- py_get msg "params" (JDict []) ;;
        r <- handle_call params ;;
        Ret (Some (Result (fst r) (snd r)))
      else Ret (Some (UnknownType msg_type))
  | Undecodable e => Raise e
  end.

(** Lines 123 to 159: the lines written, and the exception that ended the
    process if one escaped. *)
Fixpoint main (stdin : list line) : list response * option exn :=
  match stdin with
  | [] => ([], None)
  | raw_line :: rest =>
      match respond raw_line with
      | Raise e => ([], Some e)
      | Ret None => main rest
      | Ret (Some r) => let '(out, e) := main rest in (r :: out, e)
      end
  end.

(** * Notions used in the statements *)

Definition ints (l : list Z) : json := JList (map JInt l).

Definition describe_request : json := JDict [("type", JStr "describe")].

Definition call_request (params : json) : json :=
  JDict [("type", JStr "call"); ("call_id", JStr "c1"); ("params", params)].

(** [10 ** 400], a JSON integer beyond the range of binary64. *)
Definition huge : Z := 10 ^ 400.

(** The bag [d] with its precision set to the integer [z], and without. *)
Definition with_precision (d : list (string * json)) (z : Z) : json :=
  JDict (dict_set d "precision" (JInt z)).





(** The rank of the percentile [p] in a sample of [n] elements. *)
Definition rank (n : Z) (p : Q) : Q :=
  (p / inject_Z 100 * inject_Z (n - 1))%Q.

(** The largest odd integer of binary64, [2 ** 53 - 1]. *)
Definition odd_max : Z := 9007199254740991.

(** The sign bit is clear, or the value is NaN. *)
Definition sign_clear (x : spec_float) : bool :=
  match x with
  | S754_zero s | S754_infinity s | S754_finite s _ _ => negb s
  | S754_nan => true
  end.

(** Not below zero: NaN, a zero of either sign, or a positive value. *)
Definition not_negative (x : spec_float) : bool :=
  match x with
  | S754_infinity true | S754_finite true _ _ => false
  | _ => true
  end.

(** A float that is not below zero. *)
Definition is_not_negative (x : float) : Prop :=
  not_negative (Prim2SF x) = true.

(** [x <= y] on floats, and a list that holds NaN. *)
Definition float_le (x y : float) : Prop := PrimFloat.leb x y = true.

Definition has_nan (l : list float) : bool := existsb PrimFloat.is_nan l.

(** The middle of a sorted sample of [n] elements: the element at
    [n // 2] when [n] is odd, the mean of that element and the one before
    when [n] is even. *)
Definition middle (s : list float) (n : Z) : float :=
  if Z.even n then
    PrimFloat.div
      (PrimFloat.add (nth (Z.to_nat (n / 2 - 1)) s PrimFloat.zero)
                     (nth (Z.to_nat (n / 2)) s PrimFloat.zero))
      (float_of_Z 2)
  else nth (Z.to_nat (n / 2)) s PrimFloat.zero.

(** A list with at least one element. *)
Definition is_non_empty_list (v : json) : bool :=
  match v with
  | JList (_ :: _) => true
  | _ => false
  end.

(** The value [d.get(k, default)] returns. *)
Definition field (d : list (string * json)) (k : string) (default : json)
  : json :=
  match dict_get d k with
  | Some v => v
  | None => default
  end.

(** A line that is empty once stripped. *)
Definition is_blank (l : line) : bool :=
  match l with
  | Blank => true
  | _ => false
  end.

(** The lines that are not blank. *)
Definition requests (stdin : list line) : list line :=
  filter (fun l => negb (is_blank l)) stdin.

(** A line the loop answers whatever it holds: blank, refused by
    [json.loads] with [JSONDecodeError], or decoded to an object whose
    "type" is not "call". *)
Definition is_answered (l : line) : bool :=
  match l with
  | Blank | Malformed _ => true
  | Document (JDict d) => negb (is_str (field d "type" JNull) "call")
  | Document _ | Undecodable _ => false
  end.

(** The number of newline characters of a text: one less than the number
    of its lines, [text.count("\n")]. *)
Fixpoint newlines (s : string) : nat :=
  match s with
  | EmptyString => O
  | String c s' =>
      ((if Ascii.eqb c (ascii_of_nat 10) then 1 else 0) + newlines s')%nat
  end.

(** * Properties *)

(** ** General facts about outcomes *)

Lemma bind_Ret_inv {A B : Type} (c : outcome A) (k : A -> outcome B) (b : B) :
  bind c k = Ret b -> exists a, c = Ret a /\ k a = Ret b.
Proof.
  destruct c as [a | e]; simpl; intros Hk.
  - exists a. split; [reflexivity | exact Hk].
  - discriminate Hk.
Qed.

(** A [bind] that returned: name its intermediate value and go on with
    the continuation. *)
Tactic Notation "invert_bind" hyp(H) "as" ident(x) ident(Hx) :=
  apply bind_Ret_inv in H; destruct H as (x & Hx & H).

Lemma try_except_Ret_inv {A : Type} (c : outcome A) (h : exn -> outcome A)
  (a : A) :
  try_except c h = Ret a ->
  c = Ret a \/ exists e, c = Raise e /\ is_type_or_value_error e = true /\ h e = Ret a.
Proof.
  destruct c as [a' | e]; simpl; intros Hc.
  - left. exact Hc.
  - destruct (is_type_or_value_error e) eqn:He; [| discriminate Hc].
    right. exists e. repeat split; assumption.
Qed.

Lemma comprehension_length {A B : Type} (f : A -> outcome B) (l : list A)
  (r : list B) :
  comprehension f l = Ret r -> List.length r = List.length l.
Proof.
  revert r. induction l as [| x l IH]; simpl; intros r Hr.
  - injection Hr as <-. reflexivity.
  - destruct (f x) as [y | e]; simpl in Hr; [| discriminate Hr].
    destruct (comprehension f l) as [ys | e]; simpl in Hr; [| discriminate Hr].
    injection Hr as <-. simpl. f_equal. apply IH. reflexivity.
Qed.

(** ** The message loop *)

(** C1, at the line [[]]: the line is JSON but no object, [msg.get] raises
    [AttributeError], nothing is written for it and the [describe] request
    on the next line is never answered. *)
Theorem main_stops_on_non_object_line :
  main [Document (JList []); Document describe_request]
  = ([], Some (AttributeError "'list' object has no attribute 'get'")).
Proof. reflexivity. Qed.

(** The same loop answers both lines when the first is not JSON at all. *)
Lemma main_continues_after_malformed_line :
  main [Malformed "Expecting value: line 1 column 1 (char 0)";
        Document describe_request]
  = ([Result "JSON parse error: Expecting value: line 1 column 1 (char 0)" true;
      Descriptor], None).
Proof. reflexivity. Qed.

(** A call whose handler raises ends the loop as well. *)
Lemma main_stops_on_raising_call :
  main [Document (call_request
                    (JDict [("numbers", ints [1]); ("precision", JNull)]));
        Document describe_request]
  = ([], Some (TypeError
       "int() argument must be a string, a bytes-like object or a real number, not 'NoneType'")).
Proof. vm_compute. reflexivity. Qed.

(** ** The call handler: exceptions that escape *)

(** C2, at [{"numbers": [1], "precision": "abc"}]: [int("abc")] raises
    [ValueError] outside any [try], and the handler returns no pair. *)
Theorem handle_call_raises_on_precision :
  handle_call (JDict [("numbers", ints [1]); ("precision", JStr "abc")])
  = Raise (ValueError "invalid literal for int() with base 10: 'abc'").
Proof. vm_compute. reflexivity. Qed.

(** C4, at [{"numbers": [10 ** 400, "a"]}]: the list holds ["a"], which no
    coercion makes a number, but [float(10 ** 400)] raises [OverflowError]
    first, and the [except] clause lets it through. *)
Theorem handle_call_raises_on_huge_number :
  handle_call (JDict [("numbers", JList [JInt huge; JStr "a"])])
  = Raise (OverflowError "int too large to convert to float").
Proof. vm_compute. reflexivity. Qed.

(** C9, at [{"numbers": [1], "percentiles": [10 ** 400]}]: the coercion of
    the percentile fails with [OverflowError]; the set is not discarded,
    the exception escapes. *)
Theorem handle_call_raises_on_huge_percentile :
  handle_call (JDict [("numbers", ints [1]); ("percentiles", ints [huge])])
  = Raise (OverflowError "int too large to convert to float").
Proof. vm_compute. reflexivity. Qed.

(** Finite numbers are enough to make the engine itself raise: the squared
    deviation of [1e200] from the mean [0.0] overflows. *)
Lemma handle_call_raises_on_large_deviation :
  handle_call (JDict [("numbers", JList [JStr "1e200"; JStr "-1e200"])])
  = Raise (OverflowError "(34, 'Numerical result out of range')").
Proof. vm_compute. reflexivity. Qed.

(** ** The scenario of the specification *)

(** C6: [numbers = [1, 2, 3, 4, 5]], no precision and no percentiles: the
    call succeeds and the report is the six lines below, every value with
    four digits after the point and [n] a plain integer. *)
Theorem report_of_one_to_five :
  handle_call (JDict [("numbers", ints [1; 2; 3; 4; 5])])
  = Ret (String.concat newline
           [ "n        = 5";
             "min      = 1.0000";
             "max      = 5.0000";
             "mean     = 3.0000";
             "median   = 3.0000";
             "std_dev  = 1.4142" ], false).
Proof. vm_compute. reflexivity. Qed.

(** ** What reaches [compute_stats] *)

Lemma validate_Accept_inv (params : json) (numbers : list float)
  (precision : Z) (percentiles : list float) :
  validate params = Ret (Accept numbers precision percentiles) ->
  exists elements given z,
    py_get params "numbers" JNull = Ret (JList elements)
    /\ elements <> []
    /\ comprehension py_float elements = Ret numbers
    /\ py_get params "precision" (JInt 4) = Ret given
    /\ py_int given = Ret z
    /\ precision = Z.max 0 (Z.min z 10).
Proof.
  unfold validate. intros Hv.
  invert_bind Hv as raw Hraw.
  destruct raw as [| | | | | elements |]; try discriminate Hv.
  destruct elements as [| x l]; [discriminate Hv |].
  invert_bind Hv as attempt Hattempt.
  destruct attempt as [detail | numbers']; [discriminate Hv |].
  apply try_except_Ret_inv in Hattempt.
  destruct Hattempt as [Hnum | (e & _ & _ & He)]; [| discriminate He].
  invert_bind Hnum as ns Hns.
  injection Hnum as <-.
  invert_bind Hv as given Hgiven.
  invert_bind Hv as z Hz.
  invert_bind Hv as raw_pcts Hraw_pcts.
  invert_bind Hv as ps Hps.
  injection Hv as <- <- <-.
  exists (x :: l), given, z. repeat split; try assumption. discriminate.
Qed.

(** C3, as the code has it: the sample [compute_stats] is called with is
    the element-wise [float()] of a non-empty list found under "numbers",
    in the same order and of the same length; nothing is said about its
    elements being finite. *)
Theorem sample_is_coerced_nonempty_list (params : json) (numbers : list float)
  (precision : Z) (percentiles : list float)
  (Hcall : validate params = Ret (Accept numbers precision percentiles)) :
  exists elements,
    py_get params "numbers" JNull = Ret (JList elements)
    /\ comprehension py_float elements = Ret numbers
    /\ List.length numbers = List.length elements
    /\ (1 <= List.length numbers)%nat.
Proof.
  apply validate_Accept_inv in Hcall.
  destruct Hcall as (elements & given & z & Hget & Hne & Hnum & _).
  exists elements. pose proof (comprehension_length _ _ _ Hnum) as Hlen.
  repeat split; try assumption.
  rewrite Hlen. destruct elements; [contradiction | simpl; lia].
Qed.

Lemma sample_is_coerced_nonempty_list_witness :
  exists elements,
    py_get (JDict [("numbers", ints [3; 1; 2])]) "numbers" JNull
    = Ret (JList elements)
    /\ comprehension py_float elements
       = Ret [float_of_Z 3; float_of_Z 1; float_of_Z 2]
    /\ List.length [float_of_Z 3; float_of_Z 1; float_of_Z 2]
       = List.length elements
    /\ (1 <= List.length [float_of_Z 3; float_of_Z 1; float_of_Z 2])%nat.
Proof.
  apply (sample_is_coerced_nonempty_list
           (JDict [("numbers", ints [3; 1; 2])]) _ 4 []).
  vm_compute. reflexivity.
Defined.

(** C3 as stated fails at [{"numbers": ["nan", 1e999]}]: both elements are
    accepted by [float()], and [compute_stats] is called on a sample that
    holds NaN and infinity. *)
Lemma non_finite_sample_is_accepted :
  validate (JDict [("numbers", JList [JStr "nan"; JFloat infinity])])
  = Ret (Accept [nan; infinity] 4 [])
  /\ forallb PrimFloat.is_finite [nan; infinity] = false.
Proof. split; vm_compute; reflexivity. Qed.

(** The report of that sample. *)
Lemma report_of_non_finite_sample :
  handle_call (JDict [("numbers", JList [JStr "nan"; JFloat infinity])])
  = Ret (String.concat newline
           [ "n        = 2";
             "min      = nan";
             "max      = inf";
             "mean     = nan";
             "median   = nan";
             "std_dev  = nan" ], false).
Proof. vm_compute. reflexivity. Qed.

(** ** Rejected requests *)

(** The first half of C4: anything but a non-empty list under "numbers" is
    answered with the fixed diagnostic. *)
Lemma numbers_must_be_a_non_empty_array (d : list (string * json)) :
  (forall x l, dict_get d "numbers" <> Some (JList (x :: l))) ->
  handle_call (JDict d)
  = Ret ("Error: 'numbers' must be a non-empty array", true).
Proof.
  intros Hraw. unfold handle_call, validate, py_get.
  destruct (dict_get d "numbers") as [raw |]; [| reflexivity].
  destruct raw as [| | | | | elements |]; try reflexivity.
  destruct elements as [| x l]; [reflexivity |].
  exfalso. apply (Hraw x l). reflexivity.
Qed.

(** X2: when [float()] refuses an element with [TypeError] or
    [ValueError] (and no earlier element overflows), the answer is the
    diagnostic prefix followed by the message of that exception, with
    [is_error = True]. *)
Lemma non_numeric_value_is_reported (d : list (string * json))
  (x : json) (l : list json) (e : exn) :
  dict_get d "numbers" = Some (JList (x :: l)) ->
  comprehension py_float (x :: l) = Raise e ->
  is_type_or_value_error e = true ->
  handle_call (JDict d)
  = Ret ("Error: non-numeric value in numbers: " ++ message e, true).
Proof.
  intros Hget Hnum He. unfold handle_call, validate, py_get.
  rewrite Hget. cbn [bind]. rewrite Hnum. cbn [bind try_except].
  rewrite He. reflexivity.
Qed.

Lemma scenario_empty_numbers :
  handle_call (JDict [("numbers", JList [])])
  = Ret ("Error: 'numbers' must be a non-empty array", true).
Proof. reflexivity. Qed.

Lemma scenario_non_numeric :
  handle_call (JDict [("numbers", JList [JStr "a"])])
  = Ret ("Error: non-numeric value in numbers: could not convert string to float: 'a'",
         true).
Proof. vm_compute. reflexivity. Qed.

(** ** A successful call carries a report *)

Lemma compute_stats_Ret_inv (numbers : list float) (precision : Z)
  (percentiles : list float) (text : string) :
  numbers <> [] ->
  compute_stats numbers precision percentiles = Ret text ->
  exists median variance stddev first last more,
    median_of (sorted numbers) (Z.of_nat (List.length numbers)) = Ret median
    /\ variance_of numbers = Ret variance
    /\ math_sqrt variance = Ret stddev
    /\ getitem (sorted numbers) 0 = Ret first
    /\ getitem (sorted numbers) (-1) = Ret last
    /\ percentile_lines (sorted numbers) (Z.of_nat (List.length numbers))
         precision (sorted percentiles) = Ret more
    /\ text = String.concat newline
                (base_lines precision (Z.of_nat (List.length numbers))
                   first last (mean_of numbers) median stddev ++ more)%list.
Proof.
  intros Hne. unfold compute_stats.
  destruct (Z.of_nat (List.length numbers) =? 0) eqn:Hn.
  - apply Z.eqb_eq in Hn. destruct numbers; [contradiction | simpl in Hn; lia].
  - intros Hc.
    invert_bind Hc as median Hmedian.
    invert_bind Hc as variance Hvariance.
    invert_bind Hc as stddev Hstddev.
    invert_bind Hc as lowest Hlowest.
    invert_bind Hc as accepted Haccepted.
    invert_bind Hc as highest Hhighest.
    invert_bind Hc as more Hmore.
    injection Hc as <-.
    exists median, variance, stddev, lowest, highest, more.
    repeat split; assumption.
Qed.

Lemma report_is_not_the_guard_text (precision n : Z)
  (first last mean median stddev : float) (more : list string) :
  String.concat newline
    (base_lines precision n first last mean median stddev ++ more)%list
  <> "Error: empty list".
Proof.
  unfold base_lines. cbn [app String.concat String.append]. discriminate.
Qed.

Lemma handle_call_success_inv (params : json) (text : string) :
  handle_call params = Ret (text, false) ->
  exists numbers precision percentiles,
    validate params = Ret (Accept numbers precision percentiles)
    /\ numbers <> []
    /\ compute_stats numbers precision percentiles = Ret text.
Proof.
  unfold handle_call. intros Hc.
  invert_bind Hc as v Hv.
  destruct v as [diagnostic | numbers precision percentiles];
    [discriminate Hc |].
  invert_bind Hc as result Hresult.
  injection Hc as <-.
  exists numbers, precision, percentiles. repeat split; try assumption.
  destruct (validate_Accept_inv _ _ _ _ Hv)
    as (elements & _ & _ & _ & Hne & Hnum & _).
  apply comprehension_length in Hnum.
  destruct numbers; [| discriminate].
  destruct elements; [contradiction | discriminate Hnum].
Qed.

(** C10: a pair with [is_error = false] never holds the text of the guard
    of [compute_stats]; its text is the six metric lines of a non-empty
    sample that passed validation, followed by the percentile lines. *)
Theorem success_carries_a_report (params : json) (text : string)
  (Hcall : handle_call params = Ret (text, false)) :
  text <> "Error: empty list"
  /\ exists numbers precision percentiles first last median stddev more,
       validate params = Ret (Accept numbers precision percentiles)
       /\ numbers <> []
       /\ text = String.concat newline
                   (base_lines precision (Z.of_nat (List.length numbers))
                      first last (mean_of numbers) median stddev ++ more)%list.
Proof.
  apply handle_call_success_inv in Hcall.
  destruct Hcall as (numbers & precision & percentiles & Hv & Hne & Hc).
  apply compute_stats_Ret_inv in Hc; [| exact Hne].
  destruct Hc as (median & variance & stddev & first & last & more & Hc).
  destruct Hc as (_ & _ & _ & _ & _ & _ & ->).
  split; [apply report_is_not_the_guard_text |].
  exists numbers, precision, percentiles, first, last, median, stddev, more.
  repeat split; assumption.
Qed.

Lemma success_carries_a_report_witness :
  String.concat newline
    [ "n        = 1"; "min      = 7.0000"; "max      = 7.0000";
      "mean     = 7.0000"; "median   = 7.0000"; "std_dev  = 0.0000" ]
  <> "Error: empty list"
  /\ exists numbers precision percentiles first last median stddev more,
       validate (JDict [("numbers", ints [7])])
       = Ret (Accept numbers precision percentiles)
       /\ numbers <> []
       /\ String.concat newline
            [ "n        = 1"; "min      = 7.0000"; "max      = 7.0000";
              "mean     = 7.0000"; "median   = 7.0000"; "std_dev  = 0.0000" ]
          = String.concat newline
              (base_lines precision (Z.of_nat (List.length numbers))
                 first last (mean_of numbers) median stddev ++ more)%list.
Proof.
  apply (success_carries_a_report (JDict [("numbers", ints [7])])).
  vm_compute. reflexivity.
Defined.

(** The guard of [compute_stats] is met by an empty sample only, and no
    parameter bag gets that far. *)
Lemma guard_text_is_never_a_success (params : json) :
  handle_call params <> Ret ("Error: empty list", false).
Proof.
  intros Hcall. apply handle_call_success_inv in Hcall.
  destruct Hcall as (numbers & precision & percentiles & _ & Hne & Hc).
  apply compute_stats_Ret_inv in Hc; [| exact Hne].
  destruct Hc as (median & variance & stddev & first & last & more & Hc).
  destruct Hc as (_ & _ & _ & _ & _ & _ & Htext).
  symmetry in Htext. revert Htext. apply report_is_not_the_guard_text.
Qed.

(** ** Precision *)

Lemma dict_get_set_same (d : list (string * json)) (k : string) (v : json) :
  dict_get (dict_set d k v) k = Some v.
Proof.
  induction d as [| [k' v'] d IH]; simpl.
  - rewrite String.eqb_refl. reflexivity.
  - destruct (String.eqb k' k) eqn:Hk; simpl.
    + rewrite String.eqb_refl. reflexivity.
    + rewrite Hk. exact IH.
Qed.

Lemma dict_get_set_other (d : list (string * json)) (k k' : string) (v : json) :
  k <> k' -> dict_get (dict_set d k v) k' = dict_get d k'.
Proof.
  intros Hne. induction d as [| [k0 v0] d IH]; simpl.
  - apply String.eqb_neq in Hne. rewrite Hne. reflexivity.
  - destruct (String.eqb k0 k) eqn:Hk; simpl.
    + apply String.eqb_eq in Hk. subst k0.
      apply String.eqb_neq in Hne. rewrite Hne. reflexivity.
    + destruct (String.eqb k0 k'); [reflexivity | exact IH].
Qed.

Lemma dict_get_del_same (d : list (string * json)) (k : string) :
  dict_get (dict_del d k) k = None.
Proof.
  induction d as [| [k' v'] d IH]; simpl; [reflexivity |].
  destruct (String.eqb k' k) eqn:Hk; simpl; [exact IH |].
  rewrite Hk. exact IH.
Qed.

Lemma dict_get_del_other (d : list (string * json)) (k k' : string) :
  k <> k' -> dict_get (dict_del d k) k' = dict_get d k'.
Proof.
  intros Hne. induction d as [| [k0 v0] d IH]; simpl; [reflexivity |].
  destruct (String.eqb k0 k) eqn:Hk; simpl.
  - apply String.eqb_eq in Hk. subst k0.
    apply String.eqb_neq in Hne. rewrite Hne. exact IH.
  - destruct (String.eqb k0 k'); [reflexivity | exact IH].
Qed.





Lemma format_spec_in_range (precision : Z) :
  0 <= precision <= 10 -> format_spec precision = Ret tt.
Proof.
  intros Hp. unfold format_spec.
  destruct (precision <? 0) eqn:Hneg; [apply Z.ltb_lt in Hneg; lia |].
  destruct (2 ^ 63 <=? precision) eqn:Hmax; [apply Z.leb_le in Hmax; lia |].
  destruct (2 ^ 31 <=? precision) eqn:Hint; [apply Z.leb_le in Hint; lia |].
  reflexivity.
Qed.





(** Precision 999 on the sample of the scenario: ten digits. *)
Lemma report_at_precision_999 :
  handle_call (with_precision [("numbers", ints [1; 2; 3; 4; 5])] 999)
  = Ret (String.concat newline
           [ "n        = 5";
             "min      = 1.0000000000";
             "max      = 5.0000000000";
             "mean     = 3.0000000000";
             "median   = 3.0000000000";
             "std_dev  = 1.4142135624" ], false).
Proof. vm_compute. reflexivity. Qed.

(** ** Sorting and indexing *)

Section SortedFacts.
Context {A : Type} `{Number A}.

Lemma insert_length (x : A) (l : list A) :
  List.length (insert x l) = S (List.length l).
Proof.
  induction l as [| y l IH]; simpl; [reflexivity |].
  destruct (ltb y x); simpl; [rewrite IH |]; reflexivity.
Qed.

Lemma sorted_length (l : list A) : List.length (sorted l) = List.length l.
Proof.
  induction l as [| x l IH]; simpl; [reflexivity |].
  rewrite insert_length, IH. reflexivity.
Qed.

Lemma insert_Permutation (x : A) (l : list A) : Permutation (x :: l) (insert x l).
Proof.
  induction l as [| y l IH]; simpl; [apply Permutation_refl |].
  destruct (ltb y x); [| apply Permutation_refl].
  apply perm_trans with (y :: x :: l); [apply perm_swap |].
  apply perm_skip. exact IH.
Qed.

Lemma sorted_Permutation (l : list A) : Permutation l (sorted l).
Proof.
  induction l as [| x l IH]; simpl; [apply perm_nil |].
  apply perm_trans with (x :: sorted l); [apply perm_skip; exact IH |].
  apply insert_Permutation.
Qed.

Lemma insert_Forall (P : A -> Prop) (x : A) (l : list A) :
  P x -> Forall P l -> Forall P (insert x l).
Proof.
  intros Hx Hl. apply (Permutation_Forall (insert_Permutation x l)).
  constructor; assumption.
Qed.

Lemma getitem_in_range (l : list A) (i : Z) (d : A) :
  0 <= i < Z.of_nat (List.length l) ->
  getitem l i = Ret (nth (Z.to_nat i) l d).
Proof.
  intros Hi. unfold getitem.
  destruct (i <? 0) eqn:Hneg; [apply Z.ltb_lt in Hneg; lia |].
  replace ((0 <=? i) && (i <? Z.of_nat (List.length l))) with true
    by (symmetry; apply andb_true_iff; split;
        [apply Z.leb_le | apply Z.ltb_lt]; lia).
  destruct (nth_error l (Z.to_nat i)) as [x |] eqn:Hx.
  - rewrite (nth_error_nth _ _ d Hx). reflexivity.
  - apply nth_error_None in Hx. lia.
Qed.

Lemma getitem_last (l : list A) (d : A) :
  l <> [] -> getitem l (-1) = Ret (nth (List.length l - 1) l d).
Proof.
  intros Hne. unfold getitem. cbn [Z.ltb Z.compare].
  assert (Hlen : (1 <= List.length l)%nat)
    by (destruct l; [contradiction | simpl; lia]).
  replace ((0 <=? -1 + Z.of_nat (List.length l))
           && (-1 + Z.of_nat (List.length l) <? Z.of_nat (List.length l)))
    with true
    by (symmetry; apply andb_true_iff; split;
        [apply Z.leb_le | apply Z.ltb_lt]; lia).
  replace (Z.to_nat (-1 + Z.of_nat (List.length l)))
    with (List.length l - 1)%nat by lia.
  destruct (nth_error l (List.length l - 1)) as [x |] eqn:Hx.
  - rewrite (nth_error_nth _ _ d Hx). reflexivity.
  - apply nth_error_None in Hx. lia.
Qed.
End SortedFacts.

(** ** Percentiles in exact arithmetic *)

Section ExactArithmetic.
Local Open Scope Q_scope.

Lemma exact_insert_sorted (x : Q) (l : list Q) :
  StronglySorted Qle l -> StronglySorted Qle (insert x l).
Proof.
  induction 1 as [| y l Hl IH Hy]; simpl.
  - constructor; constructor.
  - destruct (Qle_bool x y) eqn:Hxy; simpl.
    + apply Qle_bool_iff in Hxy.
      constructor; [constructor; assumption |].
      constructor; [exact Hxy |].
      eapply Forall_impl; [| exact Hy].
      intros z Hz. apply Qle_trans with y; assumption.
    + constructor; [exact IH |].
      apply insert_Forall; [| exact Hy].
      apply Qlt_le_weak. apply Qnot_le_lt. intros Hle.
      apply Qle_bool_iff in Hle. congruence.
Qed.

Lemma exact_sorted_sorted (l : list Q) : StronglySorted Qle (sorted l).
Proof.
  induction l as [| x l IH]; simpl; [constructor |].
  apply exact_insert_sorted. exact IH.
Qed.

Lemma StronglySorted_nth (s : list Q) (i j : nat) :
  StronglySorted Qle s -> (i <= j < List.length s)%nat ->
  nth i s 0 <= nth j s 0.
Proof.
  intros Hs. revert i j. induction Hs as [| x s Hs IH Hx]; intros i j Hij.
  - simpl in Hij. lia.
  - destruct i as [| i], j as [| j]; simpl in *.
    + apply Qle_refl.
    + rewrite Forall_forall in Hx. apply Hx. apply nth_In. lia.
    + lia.
    + apply IH. lia.
Qed.

Lemma rank_bounds (n : Z) (p : Q) :
  (1 <= n)%Z -> 0 <= p -> p <= 100 -> 0 <= rank n p /\ rank n p <= inject_Z (n - 1).
Proof.
  intros Hn H0 H100. unfold rank.
  assert (Hm : 0 <= inject_Z (n - 1)).
  { change 0 with (inject_Z 0). rewrite <- Zle_Qle. lia. }
  change (inject_Z 100) with 100.
  set (m := inject_Z (n - 1)) in *. clearbody m.
  unfold Qdiv. change (/ 100) with (1 # 100).
  assert (H1 : 0 <= p * m) by (apply Qmult_le_0_compat; assumption).
  assert (H2 : 0 <= (100 - p) * m) by (apply Qmult_le_0_compat; lra).
  split; lra.
Qed.

Lemma rank_le (n : Z) (p q : Q) :
  (1 <= n)%Z -> p <= q -> rank n p <= rank n q.
Proof.
  intros Hn Hpq. unfold rank.
  assert (Hm : 0 <= inject_Z (n - 1)).
  { change 0 with (inject_Z 0). rewrite <- Zle_Qle. lia. }
  change (inject_Z 100) with 100.
  set (m := inject_Z (n - 1)) in *. clearbody m.
  unfold Qdiv. change (/ 100) with (1 # 100).
  assert (H1 : 0 <= (q - p) * m) by (apply Qmult_le_0_compat; lra).
  lra.
Qed.

Lemma exact_to_int (x : Q) : 0 <= x -> to_int x = Ret (Qfloor x).
Proof.
  intros Hx. destruct x as [a b]. simpl. f_equal.
  apply Z.quot_div_nonneg; [| lia].
  unfold Qle in Hx. simpl in Hx. lia.
Qed.

Lemma floor_rank_bounds (n : Z) (p : Q) :
  (1 <= n)%Z -> 0 <= p -> p <= 100 ->
  (0 <= Qfloor (rank n p) <= n - 1)%Z.
Proof.
  intros Hn H0 H100. destruct (rank_bounds n p Hn H0 H100) as [Hlo Hhi].
  split.
  - change 0%Z with (Qfloor (inject_Z 0)). apply Qfloor_resp_le. exact Hlo.
  - rewrite <- (Qfloor_Z (n - 1)). apply Qfloor_resp_le. exact Hhi.
Qed.

(** The value the loop computes for [p], with its rank split in whole and
    fractional part. *)
Lemma exact_percentile_value (s : list Q) (p : Q) :
  s <> [] -> 0 <= p -> p <= 100 ->
  let n := Z.of_nat (List.length s) in
  let lo := Qfloor (rank n p) in
  let hi := Z.min (lo + 1) (n - 1) in
  let frac := rank n p - inject_Z lo in
  percentile_value s n p
  = Ret (nth (Z.to_nat lo) s 0 * (1 - frac) + nth (Z.to_nat hi) s 0 * frac).
Proof.
  intros Hne H0 H100 n lo hi frac.
  assert (Hn : (1 <= n)%Z)
    by (subst n; destruct s; [contradiction | simpl; lia]).
  pose proof (floor_rank_bounds n p Hn H0 H100) as Hlo.
  destruct (rank_bounds n p Hn H0 H100) as [Hr0 _].
  unfold percentile_value.
  change (mul (div p (of_int 100)) (of_int (n - 1))) with (rank n p).
  rewrite (exact_to_int _ Hr0). cbn [bind].
  rewrite (getitem_in_range s (Qfloor (rank n p)) 0) by (fold n; lia).
  cbn [bind].
  rewrite (getitem_in_range s (Z.min (Qfloor (rank n p) + 1) (n - 1)) 0)
    by (fold n; lia).
  reflexivity.
Qed.

Lemma interpolation_between (a b f : Q) :
  a <= b -> 0 <= f -> f <= 1 ->
  a <= a * (1 - f) + b * f /\ a * (1 - f) + b * f <= b.
Proof.
  intros Hab H0 H1.
  assert (Ha : 0 <= f * (b - a)) by (apply Qmult_le_0_compat; lra).
  assert (Hb : 0 <= (1 - f) * (b - a)) by (apply Qmult_le_0_compat; lra).
  split; lra.
Qed.

Lemma interpolation_same_cell (a b f g : Q) :
  a <= b -> f <= g ->
  a * (1 - f) + b * f <= a * (1 - g) + b * g.
Proof.
  intros Hab Hfg.
  assert (H : 0 <= (g - f) * (b - a)) by (apply Qmult_le_0_compat; lra).
  lra.
Qed.

(** C5, for the formula evaluated without rounding: over the sorted
    sample, with exact rational arithmetic, the value interpolated at [p1]
    is at most the value interpolated at [p2] whenever
    [0 <= p1 < p2 <= 100]; both values exist. *)
Theorem exact_percentiles_are_monotone (numbers : list Q) (p1 p2 : Q)
  (Hne : numbers <> []) (H0 : 0 <= p1) (H12 : p1 < p2) (H100 : p2 <= 100) :
  exists v1 v2,
    percentile_value (sorted numbers) (Z.of_nat (List.length numbers)) p1 = Ret v1
    /\ percentile_value (sorted numbers) (Z.of_nat (List.length numbers)) p2 = Ret v2
    /\ v1 <= v2.
Proof.
  set (s := sorted numbers).
  assert (Hlen : List.length s = List.length numbers) by apply sorted_length.
  assert (Hs : s <> []).
  { intros E. rewrite E in Hlen. destruct numbers; [contradiction | discriminate]. }
  rewrite <- Hlen.
  assert (Hp1 : p1 <= 100) by lra.
  assert (Hp2 : 0 <= p2) by lra.
  rewrite (exact_percentile_value s p1 Hs H0 Hp1).
  rewrite (exact_percentile_value s p2 Hs Hp2 H100).
  set (n := Z.of_nat (List.length s)).
  assert (Hn : (1 <= n)%Z)
    by (subst n; destruct s; [contradiction | simpl; lia]).
  pose proof (floor_rank_bounds n p1 Hn H0 Hp1) as Hlo1.
  pose proof (floor_rank_bounds n p2 Hn Hp2 H100) as Hlo2.
  assert (Hrank : rank n p1 <= rank n p2) by (apply rank_le; [exact Hn | lra]).
  pose proof (Qfloor_resp_le _ _ Hrank) as Hlo.
  pose proof (Qfloor_le (rank n p1)) as Hf1.
  pose proof (Qlt_floor (rank n p1)) as Hc1.
  pose proof (Qfloor_le (rank n p2)) as Hf2.
  pose proof (Qlt_floor (rank n p2)) as Hc2.
  rewrite inject_Z_plus in Hc1, Hc2.
  change (inject_Z 1) with 1 in Hc1, Hc2.
  set (lo1 := Qfloor (rank n p1)) in *.
  set (lo2 := Qfloor (rank n p2)) in *.
  assert (Hsorted : StronglySorted Qle s) by apply exact_sorted_sorted.
  assert (Hnth : forall i j, (0 <= i <= j)%Z -> (j <= n - 1)%Z ->
                   nth (Z.to_nat i) s 0 <= nth (Z.to_nat j) s 0).
  { intros i j Hij Hj. apply StronglySorted_nth; [exact Hsorted |].
    subst n. lia. }
  eexists. eexists. split; [reflexivity |]. split; [reflexivity |].
  destruct (Z.eq_dec lo1 lo2) as [E | Hneq].
  - rewrite <- E in *.
    apply interpolation_same_cell; [apply Hnth; lia | lra].
  - assert (Hstep : (lo1 + 1 <= lo2)%Z) by lia.
    apply Qle_trans with (nth (Z.to_nat (Z.min (lo1 + 1) (n - 1))) s 0).
    + apply interpolation_between; [apply Hnth; lia | lra | lra].
    + apply Qle_trans with (nth (Z.to_nat lo2) s 0).
      * apply Hnth; lia.
      * apply interpolation_between; [apply Hnth; lia | lra | lra].
Qed.

Lemma exact_percentiles_are_monotone_witness :
  exists v1 v2,
    percentile_value (sorted [4; 1; 3; 2]) (Z.of_nat (List.length [4; 1; 3; 2])) 25
    = Ret v1
    /\ percentile_value (sorted [4; 1; 3; 2]) (Z.of_nat (List.length [4; 1; 3; 2])) 75
       = Ret v2
    /\ v1 <= v2.
Proof.
  apply (exact_percentiles_are_monotone [4; 1; 3; 2] 25 75).
  - discriminate.
  - unfold Qle. simpl. lia.
  - unfold Qlt. simpl. lia.
  - unfold Qle. simpl. lia.
Defined.
End ExactArithmetic.

(** ** Percentiles in binary64 *)

(** C5 as stated fails in the arithmetic the code runs: on the sample
    [[2 ** 53 - 1, 2 ** 53 - 1]] the value at [p = 0] is the sample's only
    value, and the value at [p = 30] is smaller by one. *)
Lemma binary64_percentiles_are_not_monotone :
  let sorted_nums := sorted [float_of_Z odd_max; float_of_Z odd_max] in
  percentile_value sorted_nums 2 (float_of_Z 0) = Ret (float_of_Z odd_max)
  /\ percentile_value sorted_nums 2 (float_of_Z 30)
     = Ret (float_of_Z (odd_max - 1))
  /\ PrimFloat.ltb (float_of_Z 0) (float_of_Z 30) = true
  /\ PrimFloat.ltb (float_of_Z (odd_max - 1)) (float_of_Z odd_max) = true.
Proof. vm_compute. repeat split; reflexivity. Qed.

(** The same sample through the handler: the report puts the 30th
    percentile below the minimum. *)
Lemma report_with_percentile_below_minimum :
  handle_call (JDict [("numbers", ints [odd_max; odd_max]);
                      ("percentiles", ints [0; 30])])
  = Ret (String.concat newline
           [ "n        = 2";
             "min      = 9007199254740991.0000";
             "max      = 9007199254740991.0000";
             "mean     = 9007199254740991.0000";
             "median   = 9007199254740991.0000";
             "std_dev  = 0.0000";
             "p0       = 9007199254740991.0000";
             "p30      = 9007199254740990.0000" ], false).
Proof. vm_compute. reflexivity. Qed.

(** The scenario with an even sample: the median and the 50th percentile. *)
Lemma scenario_median_and_p50 :
  handle_call (JDict [("numbers", ints [1; 2; 3; 4]);
                      ("percentiles", ints [50])])
  = Ret (String.concat newline
           [ "n        = 4";
             "min      = 1.0000";
             "max      = 4.0000";
             "mean     = 2.5000";
             "median   = 2.5000";
             "std_dev  = 1.1180";
             "p50      = 2.5000" ], false).
Proof. vm_compute. reflexivity. Qed.

(** ** Signs in binary64 *)

Lemma sign_clear_not_negative (x : spec_float) :
  sign_clear x = true -> not_negative x = true.
Proof. destruct x as [[] | [] | | [] m e]; simpl; congruence. Qed.

Lemma binary_round_aux_sign (mx ex : Z) (lx : location) :
  sign_clear (binary_round_aux prec emax false mx ex lx) = true.
Proof.
  unfold binary_round_aux.
  destruct (shr_fexp prec emax mx ex lx) as [mrs' e'].
  destruct (shr_fexp prec emax _ e' loc_Exact) as [mrs'' e''].
  destruct (shr_m mrs''); [reflexivity | | reflexivity].
  destruct (e'' <=? emax - prec); reflexivity.
Qed.

Lemma binary_round_sign (m : positive) (e : Z) :
  sign_clear (binary_round prec emax false m e) = true.
Proof.
  unfold binary_round. destruct (shl_align m e _) as [mz ez].
  apply binary_round_aux_sign.
Qed.

Lemma binary_normalize_sign (m e : Z) :
  0 <= m -> sign_clear (binary_normalize prec emax m e false) = true.
Proof.
  intros Hm. destruct m as [| m | m]; simpl; [reflexivity | | lia].
  apply binary_round_sign.
Qed.

Lemma SFmul_self_sign (x : spec_float) :
  sign_clear (SFmul prec emax x x) = true.
Proof.
  destruct x as [[] | [] | | [] m e]; simpl; try reflexivity;
    apply binary_round_aux_sign.
Qed.

Lemma SFadd_not_negative (x y : spec_float) :
  not_negative x = true -> not_negative y = true ->
  not_negative (SFadd prec emax x y) = true.
Proof.
  destruct x as [[] | [] | | [] mx ex], y as [[] | [] | | [] my ey];
    simpl; try congruence.
  intros _ _. apply sign_clear_not_negative. apply binary_round_sign.
Qed.

Lemma SFdiv_not_negative (x y : spec_float) :
  not_negative x = true -> sign_clear y = true ->
  not_negative (SFdiv prec emax x y) = true.
Proof.
  destruct x as [[] | [] | | [] mx ex], y as [[] | [] | | [] my ey];
    simpl; try congruence.
  intros _ _.
  destruct (SFdiv_core_binary prec emax (Z.pos mx) ex (Z.pos my) ey)
    as [[mz ez] lz].
  apply sign_clear_not_negative. apply binary_round_aux_sign.
Qed.

Lemma SFldexp_sign (x : spec_float) (e : Z) :
  sign_clear x = true -> sign_clear (SFldexp prec emax x e) = true.
Proof.
  destruct x as [[] | [] | | [] m ex]; simpl; try congruence.
  intros _. apply binary_round_sign.
Qed.

Lemma float_of_scaled_sign (m e : Z) :
  0 <= m -> sign_clear (Prim2SF (float_of_scaled m e)) = true.
Proof.
  intros Hm. unfold float_of_scaled.
  pose proof (binary_normalize_sign m e Hm) as Hs.
  destruct (binary_normalize prec emax m e false) as [[] | [] | | [] p ex];
    try discriminate Hs; try reflexivity.
  cbn [SF2Prim].
  rewrite Z_ldexp_spec. apply SFldexp_sign.
  rewrite of_uint63_spec. apply binary_normalize_sign.
  apply Uint63.to_Z_bounded.
Qed.

Lemma not_negative_ltb_zero (x : float) :
  not_negative (Prim2SF x) = true -> PrimFloat.ltb x PrimFloat.zero = false.
Proof.
  rewrite ltb_spec. change (Prim2SF PrimFloat.zero) with (S754_zero false).
  destruct (Prim2SF x) as [[] | [] | | [] m e]; intros Hx;
    try discriminate Hx; reflexivity.
Qed.

Lemma sum_from_not_negative (l : list float) (acc : float) :
  is_not_negative acc -> Forall is_not_negative l ->
  is_not_negative (fold_left PrimFloat.add l acc).
Proof.
  revert acc. induction l as [| x l IH]; intros acc Hacc Hl; simpl.
  - exact Hacc.
  - inversion Hl as [| ? ? Hx Hl']; subst. apply IH; [| exact Hl'].
    unfold is_not_negative. rewrite add_spec.
    apply SFadd_not_negative; assumption.
Qed.

Lemma sum_not_negative (l : list float) :
  Forall is_not_negative l -> is_not_negative (sum l).
Proof.
  intros Hl. apply sum_from_not_negative; [| exact Hl].
  apply sign_clear_not_negative. apply float_of_scaled_sign. lia.
Qed.

Lemma square_not_negative (x r : float) :
  square x = Ret r -> is_not_negative r.
Proof.
  unfold square.
  destruct (PrimFloat.is_infinity (PrimFloat.mul x x)
            && negb (PrimFloat.is_infinity x)); [discriminate |].
  intros Hr. injection Hr as <-. unfold is_not_negative.
  rewrite mul_spec. apply sign_clear_not_negative. apply SFmul_self_sign.
Qed.

Lemma squares_not_negative (f : float -> float) (l squares : list float) :
  comprehension (fun x => square (f x)) l = Ret squares ->
  Forall is_not_negative squares.
Proof.
  revert squares. induction l as [| x l IH]; simpl; intros squares Hs.
  - injection Hs as <-. constructor.
  - destruct (square (f x)) as [r | e] eqn:Hr; simpl in Hs; [| discriminate Hs].
    destruct (comprehension _ l) as [rs | e]; simpl in Hs; [| discriminate Hs].
    injection Hs as <-. constructor.
    + apply (square_not_negative _ _ Hr).
    + apply IH. reflexivity.
Qed.

(** The variance is never below zero, so [math.sqrt] accepts it. *)
Lemma math_sqrt_of_variance (numbers : list float) (variance : float) :
  variance_of numbers = Ret variance ->
  math_sqrt variance = Ret (PrimFloat.sqrt variance).
Proof.
  unfold variance_of. intros Hv.
  invert_bind Hv as squares Hsquares.
  injection Hv as <-. unfold math_sqrt.
  rewrite not_negative_ltb_zero; [reflexivity |].
  rewrite div_spec. apply SFdiv_not_negative.
  - apply sum_not_negative. apply (squares_not_negative _ _ _ Hsquares).
  - apply float_of_scaled_sign. lia.
Qed.

(** ** The order of binary64 *)

Lemma SFcompare_swap (x y : spec_float) :
  SFcompare y x = option_map CompOpp (SFcompare x y).
Proof.
  destruct x as [[] | [] | | [] mx ex], y as [[] | [] | | [] my ey];
    simpl; try reflexivity;
    rewrite (Z.compare_antisym ex ey);
    destruct (ex ?= ey); simpl; try reflexivity;
    rewrite (Pos.compare_cont_antisym mx my Eq); reflexivity.
Qed.

Lemma not_nan_spec (x : float) :
  PrimFloat.is_nan x = false -> Prim2SF x <> S754_nan.
Proof.
  unfold PrimFloat.is_nan. rewrite FloatAxioms.eqb_spec. intros Hx E.
  rewrite E in Hx. discriminate Hx.
Qed.

Lemma float_le_of_ltb (x y : float) :
  PrimFloat.ltb x y = true -> float_le x y.
Proof.
  unfold float_le. rewrite ltb_spec, leb_spec. unfold SFltb, SFleb.
  destruct (SFcompare (Prim2SF x) (Prim2SF y)) as [[] |]; congruence.
Qed.

Lemma float_le_of_not_ltb (x y : float) :
  PrimFloat.is_nan x = false -> PrimFloat.is_nan y = false ->
  PrimFloat.ltb y x = false -> float_le x y.
Proof.
  intros Hx Hy. apply not_nan_spec in Hx, Hy.
  unfold float_le. rewrite ltb_spec, leb_spec. unfold SFltb, SFleb.
  rewrite (SFcompare_swap (Prim2SF x) (Prim2SF y)).
  destruct (SFcompare (Prim2SF x) (Prim2SF y)) as [[] |] eqn:Hc;
    simpl; try congruence.
  exfalso.
  destruct (Prim2SF x) as [[] | [] | | [] mx ex];
    destruct (Prim2SF y) as [[] | [] | | [] my ey];
    simpl in Hc; congruence.
Qed.

Lemma float_insert_HdRel (a x : float) (l : list float) :
  float_le a x -> HdRel float_le a l -> HdRel float_le a (insert x l).
Proof.
  intros Hax Hal. destruct l as [| y l]; simpl.
  - constructor. exact Hax.
  - destruct (PrimFloat.ltb y x); constructor; [| exact Hax].
    inversion Hal; assumption.
Qed.

Lemma float_insert_sorted (x : float) (l : list float) :
  PrimFloat.is_nan x = false -> has_nan l = false ->
  Sorted float_le l -> Sorted float_le (insert x l).
Proof.
  intros Hx Hl Hs. induction Hs as [| y l Hs IH Hy]; simpl.
  - constructor; constructor.
  - simpl in Hl. apply orb_false_iff in Hl. destruct Hl as [Hyn Hl].
    destruct (PrimFloat.ltb y x) eqn:Hyx.
    + constructor; [apply IH; exact Hl |].
      apply float_insert_HdRel; [| exact Hy].
      apply float_le_of_ltb. exact Hyx.
    + constructor; [constructor; assumption |].
      constructor. apply float_le_of_not_ltb; assumption.
Qed.

Lemma has_nan_insert (x : float) (l : list float) :
  has_nan (insert x l) = PrimFloat.is_nan x || has_nan l.
Proof.
  induction l as [| y l IH]; simpl; [reflexivity |].
  destruct (PrimFloat.ltb y x); simpl; [| reflexivity].
  rewrite IH. destruct (PrimFloat.is_nan x), (PrimFloat.is_nan y); reflexivity.
Qed.

Lemma has_nan_sorted (l : list float) : has_nan (sorted l) = has_nan l.
Proof.
  induction l as [| x l IH]; simpl; [reflexivity |].
  rewrite has_nan_insert, IH. reflexivity.
Qed.

Lemma float_sorted_ascending (l : list float) :
  has_nan l = false -> Sorted float_le (sorted l).
Proof.
  induction l as [| x l IH]; simpl; intros Hl; [constructor |].
  apply orb_false_iff in Hl. destruct Hl as [Hx Hl].
  apply float_insert_sorted; [exact Hx | | apply IH; exact Hl].
  rewrite has_nan_sorted. exact Hl.
Qed.

(** ** The median *)

Lemma median_of_middle (s : list float) :
  s <> [] ->
  median_of s (Z.of_nat (List.length s))
  = Ret (middle s (Z.of_nat (List.length s))).
Proof.
  intros Hne. set (n := Z.of_nat (List.length s)).
  assert (Hn : 1 <= n) by (subst n; destruct s; [contradiction | simpl; lia]).
  unfold median_of, middle. rewrite Zmod_even.
  destruct (Z.even n) eqn:Heven; cbn [Z.eqb].
  - assert (Hn2 : 2 <= n).
    { destruct (Z.eq_dec n 1) as [E | ]; [rewrite E in Heven; discriminate | lia]. }
    pose proof (Z.div_le_lower_bound n 2 1 ltac:(lia) ltac:(lia)).
    pose proof (Z.div_lt n 2 ltac:(lia) ltac:(lia)).
    rewrite (getitem_in_range s (n / 2 - 1) PrimFloat.zero) by (fold n; lia).
    cbn [bind].
    rewrite (getitem_in_range s (n / 2) PrimFloat.zero) by (fold n; lia).
    reflexivity.
  - pose proof (Z.div_pos n 2 ltac:(lia) ltac:(lia)).
    assert (n / 2 < n) by (apply Z.div_lt_upper_bound; lia).
    apply getitem_in_range. fold n. lia.
Qed.

Lemma compute_stats_of_non_empty (numbers : list float) (precision : Z)
  (percentiles : list float) :
  numbers <> [] ->
  let n := Z.of_nat (List.length numbers) in
  let s := sorted numbers in
  compute_stats numbers precision percentiles
  = (variance <- variance_of numbers ;;
     _ <- format_spec precision ;;
     more <- percentile_lines s n precision (sorted percentiles) ;;
     Ret (String.concat newline
            (base_lines precision n
               (nth 0 s PrimFloat.zero)
               (nth (List.length numbers - 1) s PrimFloat.zero)
               (mean_of numbers) (middle s n) (PrimFloat.sqrt variance)
             ++ more)%list)).
Proof.
  intros Hne n s.
  assert (Hlen : List.length s = List.length numbers) by apply sorted_length.
  assert (Hs : s <> []).
  { intros E. rewrite E in Hlen. destruct numbers; [contradiction | discriminate]. }
  assert (Hn : 1 <= n) by (subst n; destruct numbers; [contradiction | simpl; lia]).
  unfold compute_stats. fold n. fold s.
  destruct (n =? 0) eqn:E; [apply Z.eqb_eq in E; lia |].
  unfold n at 1. rewrite <- Hlen. rewrite (median_of_middle s Hs).
  rewrite Hlen. fold n. cbn [bind].
  destruct (variance_of numbers) as [variance | e] eqn:Hv; cbn [bind];
    [| reflexivity].
  rewrite (math_sqrt_of_variance _ _ Hv). cbn [bind].
  rewrite (getitem_in_range s 0 PrimFloat.zero) by (rewrite Hlen; fold n; lia).
  cbn [bind].
  destruct (format_spec precision) as [accepted | e]; cbn [bind];
    [| reflexivity].
  rewrite (getitem_last s PrimFloat.zero Hs). cbn [bind].
  rewrite Hlen. reflexivity.
Qed.

(** C7: for a non-empty sample without NaN, a precision between 0 and 10
    (the range [handle_call] clamps to), squared deviations that stay
    finite and a percentile loop that completes, [compute_stats] returns a
    report whose fifth line is the median, and the median is the middle of
    the sample in ascending order. *)
Theorem median_is_middle_of_sorted (numbers : list float) (precision : Z)
  (percentiles : list float) (variance : float) (more : list string)
  (Hne : numbers <> [])
  (Hprecision : 0 <= precision <= 10)
  (Hnan : has_nan numbers = false)
  (Hvar : variance_of numbers = Ret variance)
  (Hmore : percentile_lines (sorted numbers) (Z.of_nat (List.length numbers))
             precision (sorted percentiles) = Ret more) :
  let n := Z.of_nat (List.length numbers) in
  let s := sorted numbers in
  let median :=
    if Z.even n then
      PrimFloat.div
        (PrimFloat.add (nth (Z.to_nat (n / 2 - 1)) s PrimFloat.zero)
                       (nth (Z.to_nat (n / 2)) s PrimFloat.zero))
        (float_of_Z 2)
    else nth (Z.to_nat (n / 2)) s PrimFloat.zero in
  Permutation numbers s
  /\ Sorted float_le s
  /\ exists lines,
       compute_stats numbers precision percentiles
       = Ret (String.concat newline lines)
       /\ nth_error lines 4 = Some ("median   = " ++ format_f precision median).
Proof.
  intros n s median. split; [apply sorted_Permutation |].
  split; [apply float_sorted_ascending; exact Hnan |].
  rewrite (compute_stats_of_non_empty numbers precision percentiles Hne).
  rewrite Hvar. cbn [bind].
  rewrite (format_spec_in_range precision Hprecision). cbn [bind].
  rewrite Hmore. cbn [bind].
  eexists. split; reflexivity.
Qed.

Lemma median_is_middle_of_sorted_witness :
  let numbers := [float_of_Z 4; float_of_Z 1; float_of_Z 3; float_of_Z 2] in
  let n := Z.of_nat (List.length numbers) in
  let s := sorted numbers in
  let median :=
    if Z.even n then
      PrimFloat.div
        (PrimFloat.add (nth (Z.to_nat (n / 2 - 1)) s PrimFloat.zero)
                       (nth (Z.to_nat (n / 2)) s PrimFloat.zero))
        (float_of_Z 2)
    else nth (Z.to_nat (n / 2)) s PrimFloat.zero in
  Permutation numbers s
  /\ Sorted float_le s
  /\ exists lines,
       compute_stats numbers 4 [float_of_Z 50] = Ret (String.concat newline lines)
       /\ nth_error lines 4 = Some ("median   = " ++ format_f 4 median).
Proof.
  apply (median_is_middle_of_sorted
           [float_of_Z 4; float_of_Z 1; float_of_Z 3; float_of_Z 2] 4
           [float_of_Z 50] 1.25%float ["p50      = 2.5000"]).
  - discriminate.
  - lia.
  - vm_compute. reflexivity.
  - vm_compute. reflexivity.
  - vm_compute. reflexivity.
Defined.

(** * Further properties of the code *)

(** ** The extremes of a sample *)

Lemma Ret_inj {A : Type} (a b : A) : Ret a = Ret b -> a = b.
Proof. intros H. injection H as H. exact H. Qed.

Lemma SFleb_trans (x y z : spec_float) :
  SFleb x y = true -> SFleb y z = true -> SFleb x z = true.
Proof.
  unfold SFleb.
  destruct x as [[] | [] | | [] mx ex], y as [[] | [] | | [] my ey],
    z as [[] | [] | | [] mz ez]; simpl; try congruence;
    change (Pos.compare_cont Eq) with Pos.compare;
    destruct (Z.compare_spec ex ey), (Z.compare_spec ey ez),
      (Z.compare_spec ex ez); try lia; try congruence;
    destruct (Pos.compare_spec mx my), (Pos.compare_spec my mz),
      (Pos.compare_spec mx mz); simpl; try lia; congruence.
Qed.

Lemma SFleb_refl (x : spec_float) : x <> S754_nan -> SFleb x x = true.
Proof.
  unfold SFleb.
  destruct x as [[] | [] | | [] m e]; simpl; try congruence;
    rewrite Z.compare_refl, Pos.compare_cont_refl; reflexivity.
Qed.

Lemma float_le_trans (x y z : float) :
  float_le x y -> float_le y z -> float_le x z.
Proof. unfold float_le. rewrite !leb_spec. apply SFleb_trans. Qed.

Lemma float_le_refl (x : float) : PrimFloat.is_nan x = false -> float_le x x.
Proof.
  intros Hx. unfold float_le. rewrite leb_spec.
  apply SFleb_refl. apply not_nan_spec. exact Hx.
Qed.

Lemma float_le_not_ltb (x y : float) :
  float_le x y -> PrimFloat.ltb y x = false.
Proof.
  unfold float_le. rewrite leb_spec, ltb_spec. unfold SFleb, SFltb.
  rewrite (SFcompare_swap (Prim2SF x) (Prim2SF y)).
  destruct (SFcompare (Prim2SF x) (Prim2SF y)) as [[] |]; simpl; congruence.
Qed.

Lemma float_sorted_strongly (l : list float) :
  has_nan l = false -> StronglySorted float_le (sorted l).
Proof.
  intros Hl. apply Sorted_StronglySorted.
  - intros x y z. apply float_le_trans.
  - apply float_sorted_ascending. exact Hl.
Qed.

Lemma has_nan_In (l : list float) (x : float) :
  has_nan l = false -> In x l -> PrimFloat.is_nan x = false.
Proof.
  unfold has_nan. intros Hl Hx.
  destruct (PrimFloat.is_nan x) eqn:E; [| reflexivity].
  assert (existsb PrimFloat.is_nan l = true)
    by (apply existsb_exists; exists x; split; assumption).
  congruence.
Qed.

Lemma ascending_nth (s : list float) (i j : nat) (d : float) :
  has_nan s = false -> StronglySorted float_le s ->
  (i <= j < List.length s)%nat -> float_le (nth i s d) (nth j s d).
Proof.
  intros Hnan Hs. revert i j. induction Hs as [| x s Hs IH Hx]; intros i j Hij.
  - simpl in Hij. lia.
  - simpl in Hnan. apply orb_false_iff in Hnan. destruct Hnan as [Hxn Hnan].
    destruct i as [| i], j as [| j]; simpl in *.
    + apply float_le_refl. exact Hxn.
    + rewrite Forall_forall in Hx. apply Hx. apply nth_In. lia.
    + lia.
    + apply IH; [exact Hnan | lia].
Qed.

(** X10: the [min] and [max] lines of a report hold the least and the
    greatest element of a sample without NaN. *)
Theorem min_and_max_are_extremes (numbers : list float) (precision : Z)
  (percentiles : list float) (text : string)
  (Hne : numbers <> [])
  (Hnan : has_nan numbers = false)
  (Hret : compute_stats numbers precision percentiles = Ret text) :
  exists lowest highest lines,
    text = String.concat newline lines
    /\ nth_error lines 1 = Some ("min      = " ++ format_f precision lowest)
    /\ nth_error lines 2 = Some ("max      = " ++ format_f precision highest)
    /\ In lowest numbers
    /\ In highest numbers
    /\ forall x, In x numbers -> float_le lowest x /\ float_le x highest.
Proof.
  rewrite (compute_stats_of_non_empty numbers precision percentiles Hne) in Hret.
  invert_bind Hret as variance Hvariance.
  invert_bind Hret as accepted Haccepted.
  invert_bind Hret as more Hmore.
  apply Ret_inj in Hret. subst text.
  set (s := sorted numbers) in *.
  assert (Hlen : List.length s = List.length numbers) by apply sorted_length.
  assert (Hpos : (1 <= List.length numbers)%nat)
    by (destruct numbers; [contradiction | simpl; lia]).
  assert (Hperm : Permutation numbers s) by apply sorted_Permutation.
  assert (Hsn : has_nan s = false) by (unfold s; rewrite has_nan_sorted; exact Hnan).
  assert (Hs : StronglySorted float_le s) by (apply float_sorted_strongly; exact Hnan).
  exists (nth 0 s PrimFloat.zero),
    (nth (List.length numbers - 1) s PrimFloat.zero).
  eexists. split; [reflexivity |].
  split; [reflexivity |]. split; [reflexivity |].
  split; [apply (Permutation_in _ (Permutation_sym Hperm)); apply nth_In; lia |].
  split; [apply (Permutation_in _ (Permutation_sym Hperm)); apply nth_In; lia |].
  intros x Hx. apply (Permutation_in _ Hperm) in Hx.
  destruct (In_nth s x PrimFloat.zero Hx) as (i & Hi & <-).
  split; apply ascending_nth; try assumption; lia.
Qed.

Lemma min_and_max_are_extremes_witness :
  exists lowest highest lines,
    String.concat newline
      [ "n        = 3"; "min      = 1.0"; "max      = 3.0"; "mean     = 2.0";
        "median   = 2.0"; "std_dev  = 0.8" ]
    = String.concat newline lines
    /\ nth_error lines 1 = Some ("min      = " ++ format_f 1 lowest)
    /\ nth_error lines 2 = Some ("max      = " ++ format_f 1 highest)
    /\ In lowest [float_of_Z 2; float_of_Z 3; float_of_Z 1]
    /\ In highest [float_of_Z 2; float_of_Z 3; float_of_Z 1]
    /\ forall x, In x [float_of_Z 2; float_of_Z 3; float_of_Z 1] ->
                 float_le lowest x /\ float_le x highest.
Proof.
  apply (min_and_max_are_extremes
           [float_of_Z 2; float_of_Z 3; float_of_Z 1] 1 []).
  - discriminate.
  - vm_compute. reflexivity.
  - vm_compute. reflexivity.
Defined.

(** ** Percentiles out of range *)

Lemma percentile_lines_skip (sorted_nums : list float) (n precision : Z)
  (ps : list float) :
  percentile_lines sorted_nums n precision (filter in_range ps)
  = percentile_lines sorted_nums n precision ps.
Proof.
  induction ps as [| p ps IH]; simpl; [reflexivity |].
  destruct (in_range p) eqn:Hp; simpl; [| exact IH].
  rewrite Hp. simpl. rewrite IH. reflexivity.
Qed.

Lemma percentile_lines_length (sorted_nums : list float) (n precision : Z)
  (ps : list float) (more : list string) :
  percentile_lines sorted_nums n precision ps = Ret more ->
  List.length more = List.length (filter in_range ps).
Proof.
  revert more. induction ps as [| p ps IH]; simpl; intros more Hm.
  - apply Ret_inj in Hm. subst more. reflexivity.
  - destruct (in_range p); simpl in *; [| apply IH; exact Hm].
    invert_bind Hm as val Hval.
    invert_bind Hm as label Hlabel.
    invert_bind Hm as rest Hrest.
    apply Ret_inj in Hm. subst more. simpl. f_equal. apply IH. exact Hrest.
Qed.

Lemma insert_filter_out (f : float -> bool) (x : float) (s : list float) :
  f x = false -> filter f (insert x s) = filter f s.
Proof.
  intros Hx. induction s as [| y s IH]; simpl.
  - rewrite Hx. reflexivity.
  - destruct (PrimFloat.ltb y x); simpl.
    + rewrite IH. reflexivity.
    + rewrite Hx. reflexivity.
Qed.

Lemma insert_before_all (x : float) (l : list float) :
  Forall (fun z => PrimFloat.ltb z x = false) l -> insert x l = x :: l.
Proof.
  intros Hl. destruct l as [| z l]; [reflexivity |].
  inversion Hl as [| ? ? Hz _]; subst. simpl. rewrite Hz. reflexivity.
Qed.

Lemma insert_filter_in (f : float -> bool) (x : float) (s : list float) :
  f x = true -> PrimFloat.is_nan x = false -> has_nan s = false ->
  StronglySorted float_le s ->
  filter f (insert x s) = insert x (filter f s).
Proof.
  intros Hx Hxn Hsn Hs. induction Hs as [| y s Hs IH Hy].
  - simpl. rewrite Hx. reflexivity.
  - simpl in Hsn. apply orb_false_iff in Hsn. destruct Hsn as [Hyn Hsn].
    cbn [insert]. change (ltb y x) with (PrimFloat.ltb y x).
    destruct (PrimFloat.ltb y x) eqn:Hyx.
    + cbn [filter]. rewrite (IH Hsn).
      destruct (f y); [| reflexivity].
      cbn [insert]. change (ltb y x) with (PrimFloat.ltb y x).
      rewrite Hyx. reflexivity.
    + assert (Hxy : float_le x y) by (apply float_le_of_not_ltb; assumption).
      change (filter f (x :: y :: s)) with
        (if f x then x :: filter f (y :: s) else filter f (y :: s)).
      rewrite Hx. symmetry. apply insert_before_all.
      apply Forall_forall. intros z Hz. apply filter_In in Hz.
      destruct Hz as [Hz _]. apply float_le_not_ltb.
      destruct Hz as [<- | Hz]; [exact Hxy |].
      apply float_le_trans with y; [exact Hxy |].
      rewrite Forall_forall in Hy. apply Hy. exact Hz.
Qed.

Lemma has_nan_filter (f : float -> bool) (l : list float) :
  has_nan l = false -> has_nan (filter f l) = false.
Proof.
  induction l as [| x l IH]; simpl; [reflexivity |].
  intros H. apply orb_false_iff in H. destruct H as [Hx Hl].
  destruct (f x); simpl; [rewrite Hx |]; apply IH; exact Hl.
Qed.

Lemma sorted_filter (f : float -> bool) (l : list float) :
  has_nan l = false -> sorted (filter f l) = filter f (sorted l).
Proof.
  induction l as [| x l IH]; simpl; [reflexivity |].
  intros H. apply orb_false_iff in H. destruct H as [Hx Hl].
  destruct (f x) eqn:Hfx.
  - cbn [sorted]. rewrite (IH Hl). symmetry.
    apply insert_filter_in; try assumption.
    + rewrite has_nan_sorted. exact Hl.
    + apply float_sorted_strongly. exact Hl.
  - rewrite (IH Hl). symmetry. apply insert_filter_out. exact Hfx.
Qed.

(** X12: percentiles outside [0, 100] leave no trace: the report is the one
    of the request without them (no NaN among the percentiles). *)
Theorem out_of_range_percentiles_are_dropped (numbers : list float)
  (precision : Z) (percentiles : list float)
  (Hnan : has_nan percentiles = false) :
  compute_stats numbers precision percentiles
  = compute_stats numbers precision (filter in_range percentiles).
Proof.
  unfold compute_stats. rewrite (sorted_filter in_range percentiles Hnan).
  rewrite percentile_lines_skip. reflexivity.
Qed.

Lemma out_of_range_percentiles_are_dropped_witness :
  compute_stats [float_of_Z 1; float_of_Z 2] 2
    [float_of_Z 200; float_of_Z 50; float_of_Z (-1)]
  = compute_stats [float_of_Z 1; float_of_Z 2] 2
      (filter in_range [float_of_Z 200; float_of_Z 50; float_of_Z (-1)]).
Proof.
  apply (out_of_range_percentiles_are_dropped
           [float_of_Z 1; float_of_Z 2] 2
           [float_of_Z 200; float_of_Z 50; float_of_Z (-1)]).
  vm_compute. reflexivity.
Defined.

Lemma filter_length_Permutation {A : Type} (f : A -> bool) (l l' : list A) :
  Permutation l l' ->
  List.length (filter f l) = List.length (filter f l').
Proof.
  induction 1 as [| x l l' _ IH | x y l | l l' l'' _ IH1 _ IH2]; simpl.
  - reflexivity.
  - destruct (f x); simpl; congruence.
  - destruct (f x), (f y); reflexivity.
  - congruence.
Qed.

Lemma newlines_app (s t : string) :
  newlines (s ++ t) = (newlines s + newlines t)%nat.
Proof.
  induction s as [| c s IH]; simpl; [reflexivity |].
  rewrite IH. lia.
Qed.

Lemma newlines_repeat_char (c : ascii) (n : nat) :
  Ascii.eqb c (ascii_of_nat 10) = false -> newlines (repeat_char c n) = 0%nat.
Proof.
  intros Hc. induction n as [| n IH]; simpl; [reflexivity |].
  rewrite Hc, IH. reflexivity.
Qed.

Lemma newlines_digits (d : Decimal.uint) :
  newlines (NilEmpty.string_of_uint d) = 0%nat.
Proof. induction d; simpl; assumption || reflexivity. Qed.

Lemma newlines_string_of_uint (d : Decimal.uint) :
  newlines (NilZero.string_of_uint d) = 0%nat.
Proof. destruct d; try reflexivity; apply (newlines_digits (_ d)). Qed.

Lemma newlines_str_of_int (z : Z) : newlines (str_of_int z) = 0%nat.
Proof.
  unfold str_of_int, NilZero.string_of_int.
  destruct (Z.to_int z) as [d | d]; simpl; apply newlines_string_of_uint.
Qed.

Lemma newlines_ljust (s : string) (w : nat) :
  newlines s = 0%nat -> newlines (ljust s w) = 0%nat.
Proof.
  intros Hs. unfold ljust. rewrite newlines_app, Hs.
  apply newlines_repeat_char. reflexivity.
Qed.

Lemma newlines_zfill (s : string) (w : nat) :
  newlines s = 0%nat -> newlines (zfill s w) = 0%nat.
Proof.
  intros Hs. unfold zfill. rewrite newlines_app, Hs.
  rewrite newlines_repeat_char; reflexivity.
Qed.

Lemma newlines_fixed_digits (precision m e : Z) :
  newlines (fixed_digits precision m e) = 0%nat.
Proof.
  unfold fixed_digits. destruct (precision =? 0).
  - apply newlines_str_of_int.
  - rewrite !newlines_app, newlines_str_of_int.
    rewrite newlines_zfill by apply newlines_str_of_int. reflexivity.
Qed.

Lemma newlines_format_f (precision : Z) (x : float) :
  newlines (format_f precision x) = 0%nat.
Proof.
  unfold format_f. destruct (Prim2SF x) as [[] | [] | | [] m e];
    try reflexivity;
    rewrite newlines_app, newlines_fixed_digits; reflexivity.
Qed.

Lemma newlines_base_lines (precision n : Z) (lowest highest mean median stddev : float) :
  Forall (fun l => newlines l = 0%nat)
    (base_lines precision n lowest highest mean median stddev).
Proof.
  unfold base_lines.
  repeat constructor;
    rewrite newlines_app, ?newlines_format_f, ?newlines_str_of_int;
    reflexivity.
Qed.

Lemma newlines_percentile_lines (sorted_nums : list float) (n precision : Z)
  (ps : list float) (more : list string) :
  percentile_lines sorted_nums n precision ps = Ret more ->
  Forall (fun l => newlines l = 0%nat) more.
Proof.
  revert more. induction ps as [| p ps IH]; simpl; intros more Hm.
  - apply Ret_inj in Hm. subst more. constructor.
  - destruct (in_range p); simpl in *; [| apply IH; exact Hm].
    invert_bind Hm as val Hval.
    invert_bind Hm as label Hlabel.
    invert_bind Hm as rest Hrest.
    apply Ret_inj in Hm. subst more. constructor; [| apply IH; exact Hrest].
    change (newlines ("p" ++ ljust (str_of_int label) 6 ++ "  = "
                      ++ format_f precision val) = 0%nat).
    rewrite !newlines_app, newlines_format_f.
    rewrite newlines_ljust by apply newlines_str_of_int. reflexivity.
Qed.

Lemma newlines_concat (lines : list string) :
  Forall (fun l => newlines l = 0%nat) lines ->
  newlines (String.concat newline lines) = (List.length lines - 1)%nat.
Proof.
  induction 1 as [| l lines Hl Hlines IH]; [reflexivity |].
  destruct lines as [| l' lines]; [simpl; rewrite Hl; reflexivity |].
  change (String.concat newline (l :: l' :: lines))
    with (l ++ newline ++ String.concat newline (l' :: lines)).
  rewrite !newlines_app, Hl, IH. simpl. lia.
Qed.

(** X11: a report has exactly six lines and one more for each requested
    percentile within [0, 100]: the text is that many lines joined by
    line feeds, no line holds a line feed, and so the text holds one line
    feed fewer than it has lines. *)
Theorem report_line_count (numbers : list float) (precision : Z)
  (percentiles : list float) (text : string)
  (Hne : numbers <> [])
  (Hret : compute_stats numbers precision percentiles = Ret text) :
  newlines text = (5 + List.length (filter in_range percentiles))%nat
  /\ exists lines,
       text = String.concat newline lines
       /\ Forall (fun l => newlines l = 0%nat) lines
       /\ List.length lines
          = (6 + List.length (filter in_range percentiles))%nat.
Proof.
  apply compute_stats_Ret_inv in Hret; [| exact Hne].
  destruct Hret as (median & variance & stddev & lowest & highest & more & H).
  destruct H as (_ & _ & _ & _ & _ & Hmore & ->).
  assert (Hfree : Forall (fun l => newlines l = 0%nat)
                    (base_lines precision (Z.of_nat (List.length numbers))
                       lowest highest (mean_of numbers) median stddev
                     ++ more)%list).
  { apply Forall_app. split; [apply newlines_base_lines |].
    apply (newlines_percentile_lines _ _ _ _ _ Hmore). }
  assert (Hcount : List.length
                     (base_lines precision (Z.of_nat (List.length numbers))
                        lowest highest (mean_of numbers) median stddev
                      ++ more)%list
                   = (6 + List.length (filter in_range percentiles))%nat).
  { rewrite length_app. cbn [base_lines List.length]. f_equal.
    rewrite (percentile_lines_length _ _ _ _ _ Hmore).
    apply filter_length_Permutation.
    apply Permutation_sym. apply sorted_Permutation. }
  split.
  - rewrite (newlines_concat _ Hfree), Hcount. reflexivity.
  - eexists. split; [reflexivity |]. split; [exact Hfree | exact Hcount].
Qed.

Lemma report_line_count_witness :
  newlines
    (String.concat newline
       [ "n        = 2"; "min      = 1.00"; "max      = 2.00";
         "mean     = 1.50"; "median   = 1.50"; "std_dev  = 0.50";
         "p50      = 1.50" ])
  = (5 + List.length
           (filter in_range
              [float_of_Z 200; float_of_Z 50; float_of_Z (-1)]))%nat
  /\ exists lines,
       String.concat newline
         [ "n        = 2"; "min      = 1.00"; "max      = 2.00";
           "mean     = 1.50"; "median   = 1.50"; "std_dev  = 0.50";
           "p50      = 1.50" ]
       = String.concat newline lines
       /\ Forall (fun l => newlines l = 0%nat) lines
       /\ List.length lines
          = (6 + List.length
                   (filter in_range
                      [float_of_Z 200; float_of_Z 50; float_of_Z (-1)]))%nat.
Proof.
  apply (report_line_count [float_of_Z 1; float_of_Z 2] 2
           [float_of_Z 200; float_of_Z 50; float_of_Z (-1)]).
  - discriminate.
  - vm_compute. reflexivity.
Defined.

(** ** The call handler, field by field *)

Lemma handle_call_error_inv (params : json) (text : string) :
  handle_call params = Ret (text, true) -> validate params = Ret (Reject text).
Proof.
  unfold handle_call. intros Hc. invert_bind Hc as v Hv.
  destruct v as [diagnostic | numbers precision percentiles].
  - apply Ret_inj in Hc. congruence.
  - invert_bind Hc as result Hresult. discriminate Hc.
Qed.

Lemma validate_Reject_inv (params : json) (text : string) :
  validate params = Ret (Reject text) ->
  exists raw,
    py_get params "numbers" JNull = Ret raw
    /\ ((is_non_empty_list raw = false
         /\ text = "Error: 'numbers' must be a non-empty array")
        \/ (exists elements e,
               raw = JList elements
               /\ is_non_empty_list raw = true
               /\ comprehension py_float elements = Raise e
               /\ is_type_or_value_error e = true
               /\ text = "Error: non-numeric value in numbers: " ++ message e)).
Proof.
  unfold validate. intros Hv. invert_bind Hv as raw Hraw.
  exists raw. split; [exact Hraw |].
  assert (Hshort : Ret (Reject "Error: 'numbers' must be a non-empty array")
                   = Ret (Reject text) ->
                   text = "Error: 'numbers' must be a non-empty array")
    by (intros E; apply Ret_inj in E; congruence).
  destruct raw as [| | | | | elements |];
    try (left; split; [reflexivity | apply Hshort; exact Hv]).
  destruct elements as [| x l];
    [left; split; [reflexivity | apply Hshort; exact Hv] |].
  right. invert_bind Hv as attempt Hattempt.
  destruct attempt as [detail | numbers].
  - apply Ret_inj in Hv.
    apply try_except_Ret_inv in Hattempt.
    destruct Hattempt as [Hnum | (e & Hraise & He & Hdetail)].
    + invert_bind Hnum as ns Hns. discriminate Hnum.
    + exists (x :: l), e. apply Ret_inj in Hdetail.
      destruct (comprehension py_float (x :: l)) as [ns | e'];
        [discriminate Hraise |].
      cbn [bind] in Hraise. repeat split; congruence.
  - invert_bind Hv as given Hgiven.
    invert_bind Hv as z Hz.
    invert_bind Hv as raw_pcts Hraw_pcts.
    invert_bind Hv as ps Hps.
    discriminate Hv.
Qed.

(** X3: a result with [is_error = True] carries one of the two diagnostics
    of the validation of "numbers": the fixed text for a value that is no
    non-empty list, or the prefix followed by the message of the
    [TypeError] or [ValueError] of the first element [float()] refused. *)
Theorem error_results_are_diagnostics (params : json) (text : string)
  (Hcall : handle_call params = Ret (text, true)) :
  exists raw,
    py_get params "numbers" JNull = Ret raw
    /\ ((is_non_empty_list raw = false
         /\ text = "Error: 'numbers' must be a non-empty array")
        \/ (exists elements e,
               raw = JList elements
               /\ is_non_empty_list raw = true
               /\ comprehension py_float elements = Raise e
               /\ is_type_or_value_error e = true
               /\ text = "Error: non-numeric value in numbers: " ++ message e)).
Proof.
  apply validate_Reject_inv. apply handle_call_error_inv. exact Hcall.
Qed.

Lemma error_results_are_diagnostics_witness :
  exists raw,
    py_get (JDict [("numbers", JList [JInt 1; JNull])]) "numbers" JNull = Ret raw
    /\ ((is_non_empty_list raw = false
         /\ "Error: non-numeric value in numbers: float() argument must be a string or a real number, not 'NoneType'"
            = "Error: 'numbers' must be a non-empty array")
        \/ (exists elements e,
               raw = JList elements
               /\ is_non_empty_list raw = true
               /\ comprehension py_float elements = Raise e
               /\ is_type_or_value_error e = true
               /\ "Error: non-numeric value in numbers: float() argument must be a string or a real number, not 'NoneType'"
                  = "Error: non-numeric value in numbers: " ++ message e)).
Proof.
  apply (error_results_are_diagnostics
           (JDict [("numbers", JList [JInt 1; JNull])])).
  vm_compute. reflexivity.
Defined.

(** X1: the bag is answered with the fixed diagnostic exactly when
    "numbers" is missing, not a list, or an empty list. *)
Theorem empty_array_diagnostic_iff (d : list (string * json)) :
  handle_call (JDict d)
  = Ret ("Error: 'numbers' must be a non-empty array", true)
  <-> is_non_empty_list (field d "numbers" JNull) = false.
Proof.
  split.
  - intros Hcall. apply handle_call_error_inv in Hcall.
    apply validate_Reject_inv in Hcall.
    destruct Hcall as (raw & Hraw & [[Hshape _] | Hbad]).
    + apply Ret_inj in Hraw. unfold field. rewrite Hraw. exact Hshape.
    + destruct Hbad as (elements & e & _ & _ & _ & _ & Htext).
      discriminate Htext.
  - intros Hshape. apply numbers_must_be_a_non_empty_array.
    intros x l Hget. unfold field in Hshape. rewrite Hget in Hshape.
    discriminate Hshape.
Qed.

Lemma non_numeric_value_is_reported_witness :
  handle_call (JDict [("numbers", JList [JInt 1; JStr "two"; JNull])])
  = Ret ("Error: non-numeric value in numbers: "
         ++ message (ValueError "could not convert string to float: 'two'"),
         true).
Proof.
  apply (non_numeric_value_is_reported
           [("numbers", JList [JInt 1; JStr "two"; JNull])]
           (JInt 1) [JStr "two"; JNull]).
  - reflexivity.
  - vm_compute. reflexivity.
  - reflexivity.
Defined.

(** X4: the handler reads "numbers", "precision" and "percentiles" only:
    setting any other field of the bag leaves its result as it was. *)
Theorem other_fields_are_ignored (d : list (string * json)) (k : string)
  (v : json)
  (Hnumbers : k <> "numbers") (Hprecision : k <> "precision")
  (Hpercentiles : k <> "percentiles") :
  handle_call (JDict (dict_set d k v)) = handle_call (JDict d).
Proof.
  unfold handle_call, validate, py_get.
  rewrite !(dict_get_set_other d k) by assumption. reflexivity.
Qed.

Lemma other_fields_are_ignored_witness :
  handle_call (JDict (dict_set [("numbers", ints [1; 2])] "call_id" (JStr "c1")))
  = handle_call (JDict [("numbers", ints [1; 2])]).
Proof.
  apply (other_fields_are_ignored [("numbers", ints [1; 2])] "call_id"
           (JStr "c1")); discriminate.
Defined.

(** X5: whatever [int()] accepts as precision (a string of digits, a float,
    a boolean) is answered like the integer it converts to. *)
Theorem precision_is_coerced (d : list (string * json)) (v : json) (z : Z)
  (Hint : py_int v = Ret z) :
  handle_call (JDict (dict_set d "precision" v))
  = handle_call (with_precision d z).
Proof.
  unfold handle_call, validate, with_precision, py_get.
  rewrite !(dict_get_set_other d "precision" "numbers") by discriminate.
  rewrite !(dict_get_set_other d "precision" "percentiles") by discriminate.
  rewrite !dict_get_set_same. cbn [bind].
  rewrite Hint. reflexivity.
Qed.

Lemma precision_is_coerced_witness :
  handle_call (JDict (dict_set [("numbers", ints [1; 2])] "precision"
                        (JStr " 2 ")))
  = handle_call (with_precision [("numbers", ints [1; 2])] 2).
Proof.
  apply (precision_is_coerced [("numbers", ints [1; 2])] (JStr " 2 ") 2).
  vm_compute. reflexivity.
Defined.

(** X6: percentiles that cannot be read (a value that does not iterate, an
    element [float()] refuses with [TypeError] or [ValueError]) are
    dropped as a whole: the result is the one of the bag without the
    field. *)
Theorem unreadable_percentiles_are_dropped (d : list (string * json))
  (v : json) (e : exn)
  (Hget : dict_get d "percentiles" = Some v)
  (Hraise : (ps <- py_iter v ;; comprehension py_float ps) = Raise e)
  (He : is_type_or_value_error e = true) :
  handle_call (JDict d) = handle_call (JDict (dict_del d "percentiles")).
Proof.
  unfold handle_call, validate, py_get.
  rewrite !(dict_get_del_other d "percentiles" "numbers") by discriminate.
  rewrite !(dict_get_del_other d "percentiles" "precision") by discriminate.
  rewrite dict_get_del_same, Hget. cbn [bind py_iter comprehension].
  rewrite Hraise. cbn [try_except]. rewrite He. reflexivity.
Qed.

Lemma unreadable_percentiles_are_dropped_witness :
  handle_call (JDict [("numbers", ints [1; 2]);
                      ("percentiles", JList [JInt 50; JStr "x"])])
  = handle_call (JDict (dict_del [("numbers", ints [1; 2]);
                                  ("percentiles", JList [JInt 50; JStr "x"])]
                          "percentiles")).
Proof.
  apply (unreadable_percentiles_are_dropped
           [("numbers", ints [1; 2]);
            ("percentiles", JList [JInt 50; JStr "x"])]
           (JList [JInt 50; JStr "x"])
           (ValueError "could not convert string to float: 'x'")).
  - reflexivity.
  - vm_compute. reflexivity.
  - reflexivity.
Defined.

(** X7: what [compute_stats] is called with: a precision between 0 and 10,
    and percentiles that are the element-wise [float()] of the field, or
    none at all. *)
Theorem accepted_arguments (params : json) (numbers : list float)
  (precision : Z) (percentiles : list float)
  (Hcall : validate params = Ret (Accept numbers precision percentiles)) :
  0 <= precision <= 10
  /\ (percentiles = []
      \/ exists raw ps,
           py_get params "percentiles" (JList []) = Ret raw
           /\ py_iter raw = Ret ps
           /\ comprehension py_float ps = Ret percentiles).
Proof.
  unfold validate in Hcall. invert_bind Hcall as raw Hraw.
  destruct raw as [| | | | | elements |]; try discriminate Hcall.
  destruct elements as [| x l]; [discriminate Hcall |].
  invert_bind Hcall as attempt Hattempt.
  destruct attempt as [detail | numbers']; [discriminate Hcall |].
  invert_bind Hcall as given Hgiven.
  invert_bind Hcall as z Hz.
  invert_bind Hcall as raw_pcts Hraw_pcts.
  invert_bind Hcall as ps' Hps.
  apply Ret_inj in Hcall. injection Hcall as _ <- <-.
  split; [lia |].
  apply try_except_Ret_inv in Hps.
  destruct Hps as [Hread | (e & _ & _ & Hempty)].
  - right. invert_bind Hread as ps Hiter. exists raw_pcts, ps.
    repeat split; assumption.
  - left. apply Ret_inj in Hempty. congruence.
Qed.

Lemma accepted_arguments_witness :
  0 <= 10 <= 10
  /\ ([float_of_Z 50] = []
      \/ exists raw ps,
           py_get (JDict [("numbers", ints [1]); ("precision", JInt 12);
                          ("percentiles", ints [50])])
             "percentiles" (JList []) = Ret raw
           /\ py_iter raw = Ret ps
           /\ comprehension py_float ps = Ret [float_of_Z 50]).
Proof.
  apply (accepted_arguments
           (JDict [("numbers", ints [1]); ("precision", JInt 12);
                   ("percentiles", ints [50])])
           [float_of_Z 1] 10 [float_of_Z 50]).
  vm_compute. reflexivity.
Defined.

(** ** What can go wrong *)

Lemma py_float_Raise (v : json) (e : exn) :
  py_float v = Raise e ->
  is_type_or_value_error e = true \/ exists m, e = OverflowError m.
Proof.
  destruct v as [| b | z | f | s | l | d]; simpl; intros H;
    try discriminate H;
    try (injection H as <-; left; reflexivity).
  - unfold float_of_int in H.
    destruct (PrimFloat.is_infinity (float_of_Z z)); [| discriminate H].
    injection H as <-. right. eexists. reflexivity.
  - destruct (float_of_chars (list_ascii_of_string s)); [discriminate H |].
    injection H as <-. left. reflexivity.
Qed.

Lemma comprehension_py_float_Raise (l : list json) (e : exn) :
  comprehension py_float l = Raise e ->
  is_type_or_value_error e = true \/ exists m, e = OverflowError m.
Proof.
  induction l as [| v l IH]; simpl; intros H; [discriminate H |].
  destruct (py_float v) as [f | e'] eqn:Hv; simpl in H.
  - destruct (comprehension py_float l) as [fs | e'']; simpl in H;
      [discriminate H |].
    injection H as <-. apply IH. reflexivity.
  - injection H as <-. apply (py_float_Raise _ _ Hv).
Qed.

Lemma variance_of_Raise (numbers : list float) (e : exn) :
  variance_of numbers = Raise e ->
  e = OverflowError "(34, 'Numerical result out of range')".
Proof.
  unfold variance_of. generalize (mean_of numbers). intros mean.
  generalize (float_of_Z (Z.of_nat (List.length numbers))). intros n.
  assert (Hsq : forall l, comprehension
                            (fun x => square (PrimFloat.sub x mean)) l
                          = Raise e ->
                e = OverflowError "(34, 'Numerical result out of range')").
  { induction l as [| x l IH]; simpl; intros H; [discriminate H |].
    unfold square in H at 1.
    destruct (PrimFloat.is_infinity _ && negb _); simpl in H.
    - injection H as <-. reflexivity.
    - destruct (comprehension _ l) as [rs | e']; simpl in H;
        [discriminate H |].
      injection H as <-. apply IH. reflexivity. }
  intros H. destruct (comprehension _ numbers) as [rs | e'] eqn:Hc;
    simpl in H; [discriminate H |].
  injection H as <-. apply (Hsq numbers). exact Hc.
Qed.

Lemma compute_stats_without_percentiles (numbers : list float)
  (precision : Z) :
  0 <= precision <= 10 ->
  (exists text, compute_stats numbers precision [] = Ret text)
  \/ compute_stats numbers precision []
     = Raise (OverflowError "(34, 'Numerical result out of range')").
Proof.
  intros Hp. destruct numbers as [| x l] eqn:E.
  - left. eexists. reflexivity.
  - rewrite <- E.
    rewrite (compute_stats_of_non_empty numbers precision [])
      by (rewrite E; discriminate).
    destruct (variance_of numbers) as [variance | e] eqn:Hv; cbn [bind].
    + rewrite (format_spec_in_range precision Hp). cbn [bind].
      left. eexists. reflexivity.
    + right. rewrite (variance_of_Raise _ _ Hv). reflexivity.
Qed.



(** Outside that range the format specification is refused: a negative
    precision ends [compute_stats] with [ValueError], whatever the
    sample holds. *)
Lemma compute_stats_negative_precision :
  compute_stats [float_of_Z 1; float_of_Z 2] (-1) []
  = Raise (ValueError "Format specifier missing precision").
Proof. vm_compute. reflexivity. Qed.

(** X8: a bag with a precision [int()] accepts and no percentiles is
    answered with a pair, unless a number or a squared deviation
    overflows: [OverflowError] is the only exception that escapes. *)
Theorem plain_call_fails_only_by_overflow (d : list (string * json)) (z : Z)
  (Hprecision : py_int (field d "precision" (JInt 4)) = Ret z)
  (Hpercentiles : dict_get d "percentiles" = None) :
  (exists text is_error, handle_call (JDict d) = Ret (text, is_error))
  \/ exists m, handle_call (JDict d) = Raise (OverflowError m).
Proof.
  unfold field in Hprecision. unfold handle_call, validate, py_get.
  rewrite Hpercentiles. cbn [bind].
  destruct (dict_get d "numbers") as [raw |];
    [| left; eexists; eexists; reflexivity].
  destruct raw as [| | | | | elements |];
    try (left; eexists; eexists; reflexivity).
  destruct elements as [| x l]; [left; eexists; eexists; reflexivity |].
  destruct (comprehension py_float (x :: l)) as [numbers | e] eqn:Hnum;
    cbn [bind try_except].
  - rewrite Hprecision. cbn [bind py_iter comprehension try_except].
    destruct (compute_stats_without_percentiles numbers
                (Z.max 0 (Z.min z 10)) ltac:(lia)) as [[text Ht] | Ht];
      rewrite Ht.
    + left. eexists. eexists. reflexivity.
    + right. eexists. reflexivity.
  - destruct (comprehension_py_float_Raise _ _ Hnum) as [He | [m ->]].
    + rewrite He. left. eexists. eexists. reflexivity.
    + right. eexists. reflexivity.
Qed.

Lemma plain_call_fails_only_by_overflow_witness :
  (exists text is_error,
      handle_call (JDict [("numbers", JList [JStr "1e200"; JStr "-1e200"])])
      = Ret (text, is_error))
  \/ exists m,
       handle_call (JDict [("numbers", JList [JStr "1e200"; JStr "-1e200"])])
       = Raise (OverflowError m).
Proof.
  apply (plain_call_fails_only_by_overflow
           [("numbers", JList [JStr "1e200"; JStr "-1e200"])] 4);
    reflexivity.
Defined.

(** ** The message loop, line by line *)

(** X15: one response for each line that is not blank, in the order of the
    lines, when the loop reaches the end of its input. *)
Theorem one_response_per_request (stdin : list line) (out : list response)
  (Hend : main stdin = (out, None)) :
  Forall2 (fun l r => respond l = Ret (Some r)) (requests stdin) out
  /\ List.length out = List.length (requests stdin).
Proof.
  assert (H : Forall2 (fun l r => respond l = Ret (Some r)) (requests stdin) out).
  { revert out Hend. induction stdin as [| l stdin IH]; simpl; intros out Hend.
    - injection Hend as <-. constructor.
    - destruct (respond l) as [[r |] | e] eqn:Hl; [| | discriminate Hend].
      + destruct (main stdin) as [out' e'] eqn:Hrest.
        injection Hend as <- ->.
        assert (Hb : is_blank l = false)
          by (destruct l; first [discriminate Hl | reflexivity]).
        unfold requests in *. simpl. rewrite Hb. simpl.
        constructor; [exact Hl | apply IH; reflexivity].
      + assert (Hb : is_blank l = true).
        { destruct l as [| e | msg | e];
            [reflexivity | discriminate Hl | | discriminate Hl].
          simpl in Hl. destruct (py_get msg "type" JNull) as [t |];
            simpl in Hl; [| discriminate Hl].
          destruct (is_str t "describe"); [discriminate Hl |].
          destruct (is_str t "call"); [| discriminate Hl].
          destruct (py_get msg "params" (JDict [])) as [p |]; simpl in Hl;
            [| discriminate Hl].
          destruct (handle_call p); simpl in Hl; discriminate Hl. }
        unfold requests in *. simpl. rewrite Hb. simpl. apply IH. exact Hend. }
  split; [exact H |].
  symmetry. apply (Forall2_length H).
Qed.

Lemma one_response_per_request_witness :
  Forall2 (fun l r => respond l = Ret (Some r))
    (requests [Blank; Malformed "no"; Blank; Document describe_request])
    [Result "JSON parse error: no" true; Descriptor]
  /\ List.length [Result "JSON parse error: no" true; Descriptor]
     = List.length
         (requests [Blank; Malformed "no"; Blank; Document describe_request]).
Proof.
  apply (one_response_per_request
           [Blank; Malformed "no"; Blank; Document describe_request]).
  reflexivity.
Defined.

(** X16: the loop over two inputs in a row: the responses of the first,
    then, if no exception ended it, those of the second; an exception in
    the first input ends the process and nothing of the second is read. *)
Theorem main_app (first second : list line) :
  main (first ++ second)
  = match main first with
    | (out, None) => let '(out', e) := main second in ((out ++ out')%list, e)
    | (out, Some e) => (out, Some e)
    end.
Proof.
  induction first as [| l first IH]; simpl.
  - destruct (main second); reflexivity.
  - destruct (respond l) as [[r |] | e]; [| exact IH | reflexivity].
    rewrite IH. destruct (main first) as [out [e |]]; [reflexivity |].
    destruct (main second); reflexivity.
Qed.

(** X17: lines that are blank, that [json.loads] refuses with
    [JSONDecodeError], or that it decodes to an object whose "type" is not
    "call" (a describe request, an unknown or missing type) never end the
    loop.  A line on which [json.loads] raises another exception is not
    among them: see [undecodable_line_ends_the_loop]. *)
Theorem answered_lines_never_end_the_loop (stdin : list line)
  (Hlines : forallb is_answered stdin = true) :
  snd (main stdin) = None.
Proof.
  induction stdin as [| l stdin IH]; simpl; [reflexivity |].
  simpl in Hlines. apply andb_true_iff in Hlines. destruct Hlines as [Hl Hrest].
  specialize (IH Hrest).
  assert (Hr : exists r, respond l = Ret r).
  { destruct l as [| e | msg | e]; simpl;
      [eexists; reflexivity | eexists; reflexivity | | discriminate Hl].
    destruct msg as [| | | | | | d]; try discriminate Hl.
    simpl in Hl. unfold field in Hl. simpl.
    destruct (is_str _ "describe"); [eexists; reflexivity |].
    destruct (is_str _ "call"); [discriminate Hl | eexists; reflexivity]. }
  destruct Hr as [r ->]. destruct r as [r |]; [| exact IH].
  destruct (main stdin). exact IH.
Qed.

Lemma answered_lines_never_end_the_loop_witness :
  snd (main [Blank; Malformed "no"; Document describe_request;
             Document (JDict [("type", JInt 3)]); Document (JDict [])])
  = None.
Proof.
  apply (answered_lines_never_end_the_loop
           [Blank; Malformed "no"; Document describe_request;
            Document (JDict [("type", JInt 3)]); Document (JDict [])]).
  reflexivity.
Defined.

(** A line on which [json.loads] raises something other than
    [JSONDecodeError] (an integer literal of more than 4300 digits, a
    nesting deeper than the recursion limit) ends the loop with that
    exception, and the lines after it are not read. *)
Lemma undecodable_line_ends_the_loop (e : exn) (before after : list line) :
  forallb is_answered before = true ->
  snd (main (before ++ Undecodable e :: after)) = Some e.
Proof.
  induction before as [| l before IH]; simpl; intros Hl; [reflexivity |].
  apply andb_true_iff in Hl. destruct Hl as [Hl Hrest]. specialize (IH Hrest).
  assert (Hr : exists r, respond l = Ret r).
  { destruct l as [| m | msg | e']; simpl;
      [eexists; reflexivity | eexists; reflexivity | | discriminate Hl].
    destruct msg as [| | | | | | d]; try discriminate Hl.
    simpl in Hl. unfold field in Hl. simpl.
    destruct (is_str _ "describe"); [eexists; reflexivity |].
    destruct (is_str _ "call"); [discriminate Hl | eexists; reflexivity]. }
  destruct Hr as [r ->]. destruct r as [r |]; [| exact IH].
  destruct (main (before ++ Undecodable e :: after)). exact IH.
Qed.

(** X18: a call whose "params" is not an object makes the handler raise
    [AttributeError], which ends the loop. *)
Theorem call_with_non_object_params_raises (d : list (string * json))
  (v : json)
  (Htype : dict_get d "type" = Some (JStr "call"))
  (Hparams : dict_get d "params" = Some v)
  (Hshape : forall d', v <> JDict d') :
  respond (Document (JDict d))
  = Raise (AttributeError
             ("'" ++ type_name v ++ "' object has no attribute 'get'")).
Proof.
  unfold respond, py_get. rewrite Htype, Hparams. cbn [bind is_str].
  cbn. unfold handle_call, validate, py_get.
  destruct v as [| | | | | | d']; try reflexivity.
  exfalso. apply (Hshape d'). reflexivity.
Qed.

Lemma call_with_non_object_params_raises_witness :
  respond (Document (JDict [("type", JStr "call"); ("params", ints [1; 2])]))
  = Raise (AttributeError
             ("'" ++ type_name (ints [1; 2])
              ++ "' object has no attribute 'get'")).
Proof.
  apply (call_with_non_object_params_raises
           [("type", JStr "call"); ("params", ints [1; 2])] (ints [1; 2])).
  - reflexivity.
  - reflexivity.
  - discriminate.
Defined.

(** X19: the loop reads "type" and "params" of a request only: any other
    field, "call_id" among them, leaves the response as it was. *)
Theorem respond_ignores_other_fields (d : list (string * json)) (k : string)
  (v : json) (Htype : k <> "type") (Hparams : k <> "params") :
  respond (Document (JDict (dict_set d k v))) = respond (Document (JDict d)).
Proof.
  unfold respond, py_get.
  rewrite !(dict_get_set_other d k) by assumption. reflexivity.
Qed.

Lemma respond_ignores_other_fields_witness :
  respond (Document (JDict (dict_set [("type", JStr "describe")] "call_id"
                              (JStr "c1"))))
  = respond (Document (JDict [("type", JStr "describe")])).
Proof.
  apply (respond_ignores_other_fields [("type", JStr "describe")] "call_id"
           (JStr "c1")); discriminate.
Defined.

(** ** Percentiles in exact arithmetic, within the sample *)

Section ExactBounds.
Local Open Scope Q_scope.

Lemma exact_nth_bounds (s : list Q) (i : nat) :
  StronglySorted Qle s -> (i < List.length s)%nat ->
  nth 0 s 0 <= nth i s 0 /\ nth i s 0 <= nth (List.length s - 1) s 0.
Proof.
  intros Hs Hi. split; apply StronglySorted_nth; try assumption; lia.
Qed.

(** X13: in exact arithmetic a percentile within [0, 100] lies between the
    least and the greatest element of the sample, which are the first
    and the last of the sorted sample. *)
Theorem exact_percentile_within_sample (numbers : list Q) (p : Q)
  (Hne : numbers <> []) (H0 : 0 <= p) (H100 : p <= 100) :
  let s := sorted numbers in
  let lowest := nth 0 s 0 in
  let highest := nth (List.length numbers - 1) s 0 in
  (forall x, In x numbers -> lowest <= x /\ x <= highest)
  /\ exists v,
       percentile_value s (Z.of_nat (List.length numbers)) p = Ret v
       /\ lowest <= v /\ v <= highest.
Proof.
  intros s lowest highest.
  assert (Hlen : List.length s = List.length numbers) by apply sorted_length.
  assert (Hs : s <> []).
  { intros E. rewrite E in Hlen. destruct numbers; [contradiction | discriminate]. }
  assert (Hsorted : StronglySorted Qle s) by apply exact_sorted_sorted.
  subst lowest highest. rewrite <- Hlen.
  split.
  - intros x Hx. apply (Permutation_in _ (sorted_Permutation numbers)) in Hx.
    destruct (In_nth s x 0 Hx) as (i & Hi & <-).
    apply exact_nth_bounds; assumption.
  - rewrite (exact_percentile_value s p Hs H0 H100).
    set (n := Z.of_nat (List.length s)).
    assert (Hn : (1 <= n)%Z)
      by (subst n; destruct s; [contradiction | simpl; lia]).
    pose proof (floor_rank_bounds n p Hn H0 H100) as Hlo.
    pose proof (Qfloor_le (rank n p)) as Hf.
    pose proof (Qlt_floor (rank n p)) as Hc.
    rewrite inject_Z_plus in Hc. change (inject_Z 1) with 1 in Hc.
    set (lo := Qfloor (rank n p)) in *.
    set (hi := Z.min (lo + 1) (n - 1)).
    eexists. split; [reflexivity |].
    destruct (exact_nth_bounds s (Z.to_nat lo) Hsorted ltac:(subst n; lia))
      as [Hlo0 Hlo1].
    destruct (exact_nth_bounds s (Z.to_nat hi) Hsorted ltac:(subst n hi; lia))
      as [Hhi0 Hhi1].
    assert (Hcell : nth (Z.to_nat lo) s 0 <= nth (Z.to_nat hi) s 0)
      by (apply StronglySorted_nth; [exact Hsorted | subst n hi; lia]).
    destruct (interpolation_between _ _ (rank n p - inject_Z lo) Hcell
                ltac:(lra) ltac:(lra)) as [Ha Hb].
    split.
    + apply Qle_trans with (nth (Z.to_nat lo) s 0); assumption.
    + apply Qle_trans with (nth (Z.to_nat hi) s 0); assumption.
Qed.

Lemma exact_percentile_within_sample_witness :
  let s := sorted [4; 1; 3; 2] in
  let lowest := nth 0 s 0 in
  let highest := nth (List.length [4; 1; 3; 2] - 1) s 0 in
  (forall x, In x [4; 1; 3; 2] -> lowest <= x /\ x <= highest)
  /\ exists v,
       percentile_value s (Z.of_nat (List.length [4; 1; 3; 2])) 40 = Ret v
       /\ lowest <= v /\ v <= highest.
Proof.
  apply (exact_percentile_within_sample [4; 1; 3; 2] 40).
  - discriminate.
  - unfold Qle. simpl. lia.
  - unfold Qle. simpl. lia.
Defined.

Lemma interpolation_at_whole_rank (a b m : Q) :
  a * (1 - (m - m)) + b * (m - m) == a.
Proof. ring. Qed.

Lemma rank_0 (n : Z) : rank n 0 == 0.
Proof. unfold rank. field. Qed.

Lemma rank_100 (n : Z) : rank n 100 == inject_Z (n - 1).
Proof. unfold rank. change (inject_Z 100) with 100. field. Qed.

(** X14: in exact arithmetic the percentile at 0 is the least element of
    the sample and the percentile at 100 the greatest. *)
Theorem exact_percentile_ends (numbers : list Q) (Hne : numbers <> []) :
  let s := sorted numbers in
  let n := Z.of_nat (List.length numbers) in
  exists v0 v100,
    percentile_value s n 0 = Ret v0
    /\ percentile_value s n 100 = Ret v100
    /\ v0 == nth 0 s 0
    /\ v100 == nth (List.length numbers - 1) s 0.
Proof.
  intros s n.
  assert (Hlen : List.length s = List.length numbers) by apply sorted_length.
  assert (Hs : s <> []).
  { intros E. rewrite E in Hlen. destruct numbers; [contradiction | discriminate]. }
  subst n. rewrite <- Hlen.
  rewrite (exact_percentile_value s 0 Hs ltac:(lra) ltac:(lra)).
  rewrite (exact_percentile_value s 100 Hs ltac:(lra) ltac:(lra)).
  set (n := Z.of_nat (List.length s)).
  assert (Hn : (1 <= n)%Z)
    by (subst n; destruct s; [contradiction | simpl; lia]).
  assert (H0 : Qfloor (rank n 0) = 0%Z)
    by (rewrite (Qfloor_comp _ _ (rank_0 n)); reflexivity).
  assert (H100 : Qfloor (rank n 100) = (n - 1)%Z)
    by (rewrite (Qfloor_comp _ _ (rank_100 n)); apply Qfloor_Z).
  rewrite H0, H100.
  eexists. eexists. split; [reflexivity |]. split; [reflexivity |].
  split.
  - rewrite (rank_0 n). apply interpolation_at_whole_rank.
  - rewrite (rank_100 n).
    replace (Z.to_nat (n - 1)) with (List.length s - 1)%nat by lia.
    apply interpolation_at_whole_rank.
Qed.

Lemma exact_percentile_ends_witness :
  let s := sorted [4; 1; 3; 2] in
  let n := Z.of_nat (List.length [4; 1; 3; 2]) in
  exists v0 v100,
    percentile_value s n 0 = Ret v0
    /\ percentile_value s n 100 = Ret v100
    /\ v0 == nth 0 s 0
    /\ v100 == nth (List.length [4; 1; 3; 2] - 1) s 0.
Proof.
  apply (exact_percentile_ends [4; 1; 3; 2]). discriminate.
Defined.
End ExactBounds.
